(** * ESP32 gate controller: a shallow embedding of WebServerESP32.ino

    The sketch is embedded as functions in a small state monad over the
    device state (flash store, global strings, route tables, event trace).
    Everything the sketch asks of the outside (pending HTTP clients, WiFi
    status polls, replies to the outbound POST, pseudo-random draws) is read
    from a [world] of oracles, so every statement below quantifies over all
    behaviours of the environment.  The libraries are taken by their
    interface: Preferences is a string-keyed map with get and put, the
    WebServer hands each handler the parsed request and sends what it is
    told to send, and every library call lands in the trace. *)

From stdpp Require Import gmap strings list fin_maps.
From Stdlib Require Import ZArith Ascii String DecimalString Lia.

Open Scope string_scope.
Open Scope list_scope.

(** ** The Arduino String operations the sketch uses

    Arduino Strings are modelled as character sequences without an embedded
    NUL.  Positions are [Z] because the source keeps them in [int] and uses
    -1 as the not-found value. *)

Module WString.

Definition len (s : string) : Z := Z.of_nat (String.length s).

(** Conversion of an int argument to the unsigned int parameter. *)
Definition to_unsigned (z : Z) : Z := (z mod 2 ^ 32)%Z.

(** [s.indexOf(pat, from)]: -1 when [from] is past the end, otherwise the
    first occurrence at or after [from]. *)
Definition indexOf (s pat : string) (from : Z) : Z :=
  let from := to_unsigned from in
  if (len s <=? from)%Z then (-1)%Z
  else match String.index (Z.to_nat from) pat s with
       | Some p => Z.of_nat p
       | None => (-1)%Z
       end.

(** [s.substring(from, to)]: the bounds are swapped when given in the
    wrong order, and the upper one is clipped to the length. *)
Definition substring (s : string) (from to : Z) : string :=
  let from := to_unsigned from in
  let to := to_unsigned to in
  let lo := if (to <? from)%Z then to else from in
  let hi := if (to <? from)%Z then from else to in
  if (len s <=? lo)%Z then EmptyString
  else
    let hi := if (len s <? hi)%Z then len s else hi in
    String.substring (Z.to_nat lo) (Z.to_nat (hi - lo)) s.

(** C [isspace] in the default locale. *)
Definition isspace (c : ascii) : bool :=
  let n := nat_of_ascii c in
  ((9 <=? n)%nat && (n <=? 13)%nat) || (n =? 32)%nat.

Fixpoint ltrim (s : string) : string :=
  match s with
  | EmptyString => EmptyString
  | String c s' => if isspace c then ltrim s' else s
  end.

Fixpoint rtrim (s : string) : string :=
  match s with
  | EmptyString => EmptyString
  | String c s' =>
      match rtrim s' with
      | EmptyString => if isspace c then EmptyString else String c EmptyString
      | r => String c r
      end
  end.

(** [s.trim()] *)
Definition trim (s : string) : string := rtrim (ltrim s).

Fixpoint replace_from (find repl : string) (skip : nat) (s : string) : string :=
  match s with
  | EmptyString => EmptyString
  | String c s' =>
      match skip with
      | S k => replace_from find repl k s'
      | O =>
          if String.prefix find s
          then repl +:+ replace_from find repl (String.length find - 1) s'
          else String c (replace_from find repl 0 s')
      end
  end.

(** [s.replace(find, repl)]: every occurrence, left to right; an empty
    [find] leaves the string alone. *)
Definition replace (find repl s : string) : string :=
  if (String.length find =? 0)%nat then s else replace_from find repl 0 s.

(** [String(n)] for an int: its decimal representation. *)
Definition of_int (n : Z) : string := NilZero.string_of_int (Z.to_int n).

(** [char(n)] *)
Definition char (n : Z) : ascii := ascii_of_nat (Z.to_nat (n mod 256)).

Definition of_char (c : ascii) : string := String c EmptyString.

End WString.

(** The double quote character, and a string literal in double quotes. *)
Definition dq : string := String (ascii_of_nat 34) EmptyString.
Definition quoted (s : string) : string := dq +:+ s +:+ dq.

(** ** HTTP requests as the WebServer library presents them *)

Inductive http_method :=
  | HTTP_GET | HTTP_POST | HTTP_PUT | HTTP_DELETE | HTTP_HEAD | HTTP_OPTIONS
  | HTTP_PATCH.

Definition http_method_eqb (a b : http_method) : bool :=
  match a, b with
  | HTTP_GET, HTTP_GET | HTTP_POST, HTTP_POST | HTTP_PUT, HTTP_PUT
  | HTTP_DELETE, HTTP_DELETE | HTTP_HEAD, HTTP_HEAD
  | HTTP_OPTIONS, HTTP_OPTIONS | HTTP_PATCH, HTTP_PATCH => true
  | _, _ => false
  end.

(** A parsed request.  [headers] are the request headers the library has
    kept for the handlers; [args] holds query and form fields in arrival
    order, and a body that is not form-encoded is the field named plain. *)
Record request := {
  method : http_method;
  uri : string;
  headers : list (string * string);
  args : list (string * string)
}.

Module WebServer.

Definition lower (c : ascii) : ascii :=
  let n := nat_of_ascii c in
  if ((65 <=? n)%nat && (n <=? 90)%nat) then ascii_of_nat (n + 32) else c.

Fixpoint lowercase (s : string) : string :=
  match s with
  | EmptyString => EmptyString
  | String c s' => String (lower c) (lowercase s')
  end.

(** Header names are compared without regard to case. *)
Definition equalsIgnoreCase (a b : string) : bool :=
  String.eqb (lowercase a) (lowercase b).

(** [hasHeader(name)]: a header of that name with a non-empty value. *)
Definition hasHeader (req : request) (name : string) : bool :=
  existsb (fun kv => equalsIgnoreCase (fst kv) name
                     && negb (String.eqb (snd kv) EmptyString))
          (headers req).

(** [header(name)]: the value of the first header of that name, or the
    empty string. *)
Definition header (req : request) (name : string) : string :=
  match List.find (fun kv => equalsIgnoreCase (fst kv) name) (headers req) with
  | Some kv => snd kv
  | None => EmptyString
  end.

(** [hasArg(name)] and [arg(name)] *)
Definition hasArg (req : request) (name : string) : bool :=
  existsb (fun kv => String.eqb (fst kv) name) (args req).

Definition arg (req : request) (name : string) : string :=
  match List.find (fun kv => String.eqb (fst kv) name) (args req) with
  | Some kv => snd kv
  | None => EmptyString
  end.

End WebServer.

(** ** Observable actions and device state *)

Inductive pin_mode := INPUT | OUTPUT.
Inductive wifi_mode := WIFI_STA | WIFI_AP.

(** The two WebServer objects of the sketch. *)
Inductive server_id := server | setupServer.

(** The PROGMEM documents served by reference. *)
Inductive progmem := swaggerUI | swaggerJSON.

(** The request handlers, as registered with [on] and [onNotFound]. *)
Inductive handler :=
  | h_handleOpen | h_handleClose | h_handleDocs | h_handleSwaggerJSON
  | h_handleNotFound | h_handleSetupRoot | h_handleSetupSave
  | h_handleConfigPost.

Inductive event :=
  | SerialBegin (baud : Z)
  | SerialPrint (s : string)
  | SerialPrintln (s : string)
  | SerialPrintlnIP
  | Delay (ms : Z)
  | PinMode (pin : Z) (m : pin_mode)
  | DigitalWrite (pin : Z) (high : bool)
  | PrefsBegin (namespace : string) (readOnly : bool)
  | WiFiMode (m : wifi_mode)
  | WiFiSoftAP (ssid : string)
  | WiFiBegin (ssid pass : string)
  | ServerBegin (s : server_id)
  | SendHeader (s : server_id) (name value : string)
  | Send (s : server_id) (code : Z) (ctype body : string)
  | SendP (s : server_id) (code : Z) (ctype : string) (doc : progmem)
  | HttpBegin (url : string)
  | HttpAddHeader (name value : string)
  | HttpPOST (body : string)
  | EspRestart.

Record route := {
  r_server : server_id;
  r_uri : string;
  r_method : http_method;
  r_handler : handler
}.

Record state := {
  prefs : gmap string string;       (* the flash store, namespace config *)
  savedSSID : string;
  savedPassword : string;
  savedAPIKey : string;
  rng_seed : Z;                     (* software generator: seed and position *)
  rng_pos : nat;
  entropy_pos : nat;                (* hardware entropy readings taken *)
  wifi_pos : nat;                   (* WiFi.status() polls made *)
  client_pos : nat;                 (* handleClient calls made *)
  post_pos : nat;                   (* outbound POSTs made *)
  routes : list route;
  notFound : list (server_id * handler);
  trace : list event                (* oldest first *)
}.

(** What the environment does. *)
Record world := {
  prng : Z -> nat -> Z;             (* seed, position: raw draw *)
  esp_random : nat -> Z;            (* n-th hardware entropy reading *)
  wifi_connected : nat -> bool;     (* n-th status poll is WL_CONNECTED *)
  clients : nat -> option request;  (* client pending at the n-th handleClient *)
  post_reply : nat -> Z * string    (* n-th outbound POST: code and content *)
}.

(** State after power-on or restart: only the flash store survives. *)
Definition boot_state (flash : gmap string string) : state :=
  {| prefs := flash; savedSSID := EmptyString; savedPassword := EmptyString;
     savedAPIKey := EmptyString; rng_seed := 1; rng_pos := 0; entropy_pos := 0;
     wifi_pos := 0; client_pos := 0; post_pos := 0; routes := [];
     notFound := []; trace := [] |}.

Definition set_prefs (f : gmap string string -> gmap string string) (st : state) : state :=
  {| prefs := f (prefs st); savedSSID := savedSSID st;
     savedPassword := savedPassword st; savedAPIKey := savedAPIKey st;
     rng_seed := rng_seed st; rng_pos := rng_pos st;
     entropy_pos := entropy_pos st; wifi_pos := wifi_pos st;
     client_pos := client_pos st; post_pos := post_pos st;
     routes := routes st; notFound := notFound st; trace := trace st |}.

Definition set_saved (ssid pass key : string) (st : state) : state :=
  {| prefs := prefs st; savedSSID := ssid; savedPassword := pass;
     savedAPIKey := key; rng_seed := rng_seed st; rng_pos := rng_pos st;
     entropy_pos := entropy_pos st; wifi_pos := wifi_pos st;
     client_pos := client_pos st; post_pos := post_pos st;
     routes := routes st; notFound := notFound st; trace := trace st |}.

Definition set_rng (seed : Z) (pos : nat) (st : state) : state :=
  {| prefs := prefs st; savedSSID := savedSSID st;
     savedPassword := savedPassword st; savedAPIKey := savedAPIKey st;
     rng_seed := seed; rng_pos := pos;
     entropy_pos := entropy_pos st; wifi_pos := wifi_pos st;
     client_pos := client_pos st; post_pos := post_pos st;
     routes := routes st; notFound := notFound st; trace := trace st |}.

(** Advance the oracle positions. *)
Definition set_pos (e w c p : nat) (st : state) : state :=
  {| prefs := prefs st; savedSSID := savedSSID st;
     savedPassword := savedPassword st; savedAPIKey := savedAPIKey st;
     rng_seed := rng_seed st; rng_pos := rng_pos st;
     entropy_pos := e; wifi_pos := w; client_pos := c; post_pos := p;
     routes := routes st; notFound := notFound st; trace := trace st |}.

Definition set_routes (rs : list route) (nf : list (server_id * handler))
    (st : state) : state :=
  {| prefs := prefs st; savedSSID := savedSSID st;
     savedPassword := savedPassword st; savedAPIKey := savedAPIKey st;
     rng_seed := rng_seed st; rng_pos := rng_pos st;
     entropy_pos := entropy_pos st; wifi_pos := wifi_pos st;
     client_pos := client_pos st; post_pos := post_pos st;
     routes := rs; notFound := nf; trace := trace st |}.

Definition set_trace (t : list event) (st : state) : state :=
  {| prefs := prefs st; savedSSID := savedSSID st;
     savedPassword := savedPassword st; savedAPIKey := savedAPIKey st;
     rng_seed := rng_seed st; rng_pos := rng_pos st;
     entropy_pos := entropy_pos st; wifi_pos := wifi_pos st;
     client_pos := client_pos st; post_pos := post_pos st;
     routes := routes st; notFound := notFound st; trace := t |}.

(** ** The monad of the sketch

    A computation either returns, restarts the chip ([Reboot]: control never
    comes back to the caller), or is still inside a loop when the fuel given
    to that loop is used up ([Spin]). *)

Inductive outcome (A : Type) :=
  | Ret (a : A)
  | Reboot
  | Spin.
Arguments Ret {A} a.
Arguments Reboot {A}.
Arguments Spin {A}.

Definition M (A : Type) : Type := state -> outcome A * state.

Definition ret {A} (a : A) : M A := fun st => (Ret a, st).

Definition bind {A B} (m : M A) (k : A -> M B) : M B :=
  fun st =>
    match m st with
    | (Ret a, st') => k a st'
    | (Reboot, st') => (Reboot, st')
    | (Spin, st') => (Spin, st')
    end.

Notation "x <- m ;; k" := (bind m (fun x => k))
  (at level 100, m at next level, right associativity).
Notation "m ;; k" := (bind m (fun _ => k))
  (at level 100, right associativity).

Definition gets {A} (f : state -> A) : M A := fun st => (Ret (f st), st).
Definition modify (f : state -> state) : M unit := fun st => (Ret tt, f st).
Definition emit (e : event) : M unit :=
  modify (fun st => set_trace (trace st ++ [e]) st).

(** [while (cond) body] with a bound on the number of iterations. *)
Fixpoint while (fuel : nat) (cond : M bool) (body : M unit) : M unit :=
  match fuel with
  | O => fun st => (Spin, st)
  | S fuel' =>
      c <- cond ;;
      if c then body ;; while fuel' cond body else ret tt
  end.

(** ** The sketch *)

(** What [getString(key, def)] finds in a flash content. *)
Definition stored (flash : gmap string string) (key def : string) : string :=
  default def (flash !! key).

Definition relayPin : Z := 23.
Definition relayPinMinus : Z := 22.
Definition endpointUrl : string :=
  "https://develop.messengerapi.chytravrata.eu/receive".

Definition server_id_eqb (a b : server_id) : bool :=
  match a, b with
  | server, server | setupServer, setupServer => true
  | _, _ => false
  end.

Section Sketch.

Variable W : world.

(** *** Library calls *)

Definition Serial_print (s : string) : M unit := emit (SerialPrint s).
Definition Serial_println (s : string) : M unit := emit (SerialPrintln s).
Definition delay (ms : Z) : M unit := emit (Delay ms).
Definition pinMode (pin : Z) (m : pin_mode) : M unit := emit (PinMode pin m).
Definition digitalWrite (pin : Z) (high : bool) : M unit :=
  emit (DigitalWrite pin high).

(** Preferences: a string-keyed store with get (with default) and put. *)
Definition getString (key def : string) : M string :=
  gets (fun st => stored (prefs st) key def).
Definition putString (key value : string) : M unit :=
  modify (set_prefs (insert key value)).

(** [random(howsmall, howbig)]: by its contract a value in
    [howsmall, howbig), taken from the next raw draw of the generator. *)
Definition random (howsmall howbig : Z) : M Z :=
  fun st =>
    if (howbig <=? howsmall)%Z then (Ret howsmall, st)
    else
      let raw := prng W (rng_seed st) (rng_pos st) in
      (Ret (howsmall + raw mod (howbig - howsmall))%Z,
       set_rng (rng_seed st) (S (rng_pos st)) st).

(** [randomSeed(esp_random())]: a zero seed is ignored. *)
Definition randomSeed_esp_random : M unit :=
  fun st =>
    let seed := (esp_random W (entropy_pos st) mod 2 ^ 32)%Z in
    let st' := set_pos (S (entropy_pos st)) (wifi_pos st) (client_pos st)
                 (post_pos st) st in
    if (seed =? 0)%Z then (Ret tt, st') else (Ret tt, set_rng seed 0 st').

(** [WiFi.status() == WL_CONNECTED] *)
Definition WiFi_connected : M bool :=
  fun st =>
    (Ret (wifi_connected W (wifi_pos st)),
     set_pos (entropy_pos st) (S (wifi_pos st)) (client_pos st) (post_pos st) st).

(** [http.POST(body)]: the status code, and the content for [getString]. *)
Definition http_POST (body : string) : M (Z * string) :=
  fun st =>
    (Ret (post_reply W (post_pos st)),
     set_trace (trace st ++ [HttpPOST body])
       (set_pos (entropy_pos st) (wifi_pos st) (client_pos st)
          (S (post_pos st)) st)).

Definition ESP_restart : M unit :=
  fun st => (Reboot, set_trace (trace st ++ [EspRestart]) st).

Definition server_on (s : server_id) (u : string) (m : http_method)
    (h : handler) : M unit :=
  modify (fun st =>
    set_routes (routes st ++ [{| r_server := s; r_uri := u; r_method := m;
                                 r_handler := h |}])
               (notFound st) st).

Definition server_onNotFound (s : server_id) (h : handler) : M unit :=
  modify (fun st => set_routes (routes st) ((s, h) :: notFound st) st).

(** *** Utility: generate a random 16-character API key *)

Fixpoint generateAPIKey_loop (n : nat) (key : string) : M string :=
  match n with
  | O => ret key
  | S n' =>
      r <- random 0 16 ;;
      generateAPIKey_loop n'
        (if (r <? 10)%Z then key +:+ WString.of_int r
         else key +:+ WString.of_char (WString.char (65 + (r - 10))))
  end.

Definition generateAPIKey : M string := generateAPIKey_loop 16 EmptyString.

(** *** Normal mode: bearer token authentication *)

Definition checkAuth (req : request) : M bool :=
  if negb (WebServer.hasHeader req "Authorization") then ret false
  else
    let auth := WebServer.header req "Authorization" in
    key <- gets savedAPIKey ;;
    let expected := "Bearer " +:+ key in
    if String.eqb auth expected then ret true else ret false.

Definition unauthorized_body : string :=
  "{" +:+ quoted "error" +:+ ":" +:+ quoted "Unauthorized" +:+ "}".

Definition handleUnauthorized : M unit :=
  emit (SendHeader server "WWW-Authenticate" "Bearer") ;;
  emit (Send server 401 "application/json" unauthorized_body).

Definition openOrCloseGate : M unit :=
  Serial_println "Open/Close started..." ;;
  pinMode relayPin OUTPUT ;;
  pinMode relayPinMinus OUTPUT ;;
  Serial_println "Clicking for 3 sec..." ;;
  delay 3000 ;;
  Serial_println "Ended 3 sec click..." ;;
  pinMode relayPin INPUT ;;
  pinMode relayPinMinus INPUT ;;
  Serial_println "Open/Clocse ended".

Definition opened_body : string :=
  "{" +:+ quoted "status" +:+ ": " +:+ quoted "gate opened" +:+ "}".
Definition closed_body : string :=
  "{" +:+ quoted "status" +:+ ": " +:+ quoted "gate closed" +:+ "}".
Definition not_found_body : string :=
  "{" +:+ quoted "error" +:+ ": " +:+ quoted "Not found" +:+ "}".

Definition handleOpen (req : request) : M unit :=
  ok <- checkAuth req ;;
  if negb ok then handleUnauthorized
  else
    openOrCloseGate ;;
    emit (Send server 200 "application/json" opened_body).

Definition handleClose (req : request) : M unit :=
  ok <- checkAuth req ;;
  if negb ok then handleUnauthorized
  else
    openOrCloseGate ;;
    emit (Send server 200 "application/json" closed_body).

Definition handleDocs : M unit :=
  emit (SendP server 200 "text/html" swaggerUI).

Definition handleSwaggerJSON : M unit :=
  emit (SendP server 200 "application/json" swaggerJSON).

Definition handleNotFound (req : request) : M unit :=
  ok <- checkAuth req ;;
  if negb ok then handleUnauthorized
  else emit (Send server 404 "application/json" not_found_body).

(** *** Setup portal *)

Definition setup_page : string :=
  "<html><head><title>ESP32 Setup</title></head><body>"
  +:+ "<h1>ESP32 WiFi Setup</h1>"
  +:+ "<form action='/save' method='POST'>"
  +:+ "WiFi SSID: <input type='text' name='ssid'><br>"
  +:+ "WiFi Password: <input type='text' name='password'><br>"
  +:+ "<input type='submit' value='Save'>"
  +:+ "</form>"
  +:+ "<br><hr><br>"
  +:+ "<h2>API Setup (JSON POST)</h2>"
  +:+ "<p>You can also POST your WiFi credentials to <code>/config</code> and get your API key in return.</p>"
  +:+ "<p>Example JSON:</p>"
  +:+ "<pre>{" +:+ quoted "ssid" +:+ ": " +:+ quoted "yourSSID" +:+ ", "
  +:+ quoted "password" +:+ ": " +:+ quoted "yourPassword" +:+ "}</pre>"
  +:+ "</body></html>".

Definition handleSetupRoot : M unit :=
  emit (Send setupServer 200 "text/html" setup_page).

Definition saved_page (newAPIKey : string) : string :=
  "<html><body><h1>Configuration Saved!</h1>"
  +:+ ("<p>Your API Key is: " +:+ newAPIKey +:+ "</p>")
  +:+ "<p>The device will restart now.</p>"
  +:+ "</body></html>".

Definition handleSetupSave (req : request) : M unit :=
  if WebServer.hasArg req "ssid" && WebServer.hasArg req "password" then
    let newSSID := WebServer.arg req "ssid" in
    let newPassword := WebServer.arg req "password" in
    newAPIKey <- generateAPIKey ;;
    putString "ssid" newSSID ;;
    putString "password" newPassword ;;
    putString "apikey" newAPIKey ;;
    emit (Send setupServer 200 "text/html" (saved_page newAPIKey)) ;;
    delay 2000 ;;
    ESP_restart
  else
    emit (Send setupServer 400 "text/html" "Missing SSID or password").

(** The minimal scan of a JSON body for the two fields (the else branch of
    [handleConfigPost]); both results start out empty. *)
Definition scan_json (body : string) : string * string :=
  let ssidIndex := WString.indexOf body (quoted "ssid") 0 in
  let passIndex := WString.indexOf body (quoted "password") 0 in
  if negb (ssidIndex =? -1)%Z && negb (passIndex =? -1)%Z then
    let colonIndex := WString.indexOf body ":" ssidIndex in
    let commaIndex := WString.indexOf body "," ssidIndex in
    let newSSID :=
      if negb (colonIndex =? -1)%Z then
        WString.replace dq EmptyString
          (WString.trim
             (WString.substring body (colonIndex + 1)
                (if (commaIndex =? -1)%Z then WString.len body else commaIndex)))
      else EmptyString in
    let colonIndex := WString.indexOf body ":" passIndex in
    let endIndex := WString.indexOf body "}" passIndex in
    let newPassword :=
      if negb (colonIndex =? -1)%Z && negb (endIndex =? -1)%Z then
        WString.replace dq EmptyString
          (WString.trim (WString.substring body (colonIndex + 1) endIndex))
      else EmptyString in
    (newSSID, newPassword)
  else (EmptyString, EmptyString).

(** [newSSID] and [newPassword] as [handleConfigPost] obtains them: from
    the form fields when both are there, otherwise from the body. *)
Definition config_fields (req : request) : string * string :=
  if WebServer.hasArg req "ssid" && WebServer.hasArg req "password" then
    (WebServer.arg req "ssid", WebServer.arg req "password")
  else scan_json (WebServer.arg req "plain").

Definition already_set_body : string :=
  "{" +:+ quoted "error" +:+ ":" +:+ quoted "Configuration already set." +:+ "}".
Definition missing_body : string :=
  "{" +:+ quoted "error" +:+ ":" +:+ quoted "Missing SSID or password" +:+ "}".
Definition apikey_body (newAPIKey : string) : string :=
  ("{" +:+ quoted "apikey" +:+ ":" +:+ dq) +:+ newAPIKey +:+ (dq +:+ "}").

Definition handleConfigPost (req : request) : M unit :=
  stored <- getString "ssid" EmptyString ;;
  if negb (String.eqb stored EmptyString) then
    emit (Send setupServer 403 "application/json" already_set_body)
  else
    let '(newSSID, newPassword) := config_fields req in
    if String.eqb newSSID EmptyString || String.eqb newPassword EmptyString then
      emit (Send setupServer 400 "application/json" missing_body)
    else
      newAPIKey <- generateAPIKey ;;
      putString "ssid" newSSID ;;
      putString "password" newPassword ;;
      putString "apikey" newAPIKey ;;
      emit (Send setupServer 200 "application/json" (apikey_body newAPIKey)) ;;
      delay 2000 ;;
      ESP_restart.

(** *** Remote notifier *)

Definition getRequestData : string :=
  "{" +:+ quoted "apiKey" +:+ ": "
  +:+ quoted "7d4eb3da-ba58-47a8-801c-5f74285d69b4" +:+ " }".

Definition sendPostMessage : M unit :=
  emit (HttpBegin endpointUrl) ;;
  emit (HttpAddHeader "Content-Type" "application/json") ;;
  reply <- http_POST getRequestData ;;
  let httpResponseCode := fst reply in
  if (httpResponseCode =? 200)%Z then
    let response := snd reply in
    Serial_println ("Response Code: " +:+ WString.of_int httpResponseCode) ;;
    Serial_println ("Response: " +:+ response) ;;
    openOrCloseGate
  else
    Serial_println ("Error on sending POST: " +:+ WString.of_int httpResponseCode).

(** *** Request dispatch, as [handleClient] of the library does it *)

Definition run_handler (h : handler) (req : request) : M unit :=
  match h with
  | h_handleOpen => handleOpen req
  | h_handleClose => handleClose req
  | h_handleDocs => handleDocs
  | h_handleSwaggerJSON => handleSwaggerJSON
  | h_handleNotFound => handleNotFound req
  | h_handleSetupRoot => handleSetupRoot
  | h_handleSetupSave => handleSetupSave req
  | h_handleConfigPost => handleConfigPost req
  end.

Definition route_matches (s : server_id) (req : request) (r : route) : bool :=
  server_id_eqb (r_server r) s
  && http_method_eqb (r_method r) (method req)
  && String.eqb (r_uri r) (uri req).

(** The first registered route of that server for the method and path;
    failing that the not-found handler; failing that the 404 of the
    library. *)
Definition dispatch (s : server_id) (req : request) : M unit :=
  rs <- gets routes ;;
  match List.find (route_matches s req) rs with
  | Some r => run_handler (r_handler r) req
  | None =>
      nf <- gets notFound ;;
      match List.find (fun x => server_id_eqb (fst x) s) nf with
      | Some x => run_handler (snd x) req
      | None => emit (Send s 404 "text/plain" ("Not found: " +:+ uri req))
      end
  end.

Definition handleClient (s : server_id) : M unit :=
  n <- gets client_pos ;;
  modify (fun st => set_pos (entropy_pos st) (wifi_pos st) (S (client_pos st))
                      (post_pos st) st) ;;
  match clients W n with
  | Some req => dispatch s req
  | None => ret tt
  end.

(** *** Run the setup portal in AP mode *)

Definition runSetupPortal (fuel : nat) : M unit :=
  emit (WiFiMode WIFI_AP) ;;
  let apSSID := "ESP32-Setup" in
  emit (WiFiSoftAP apSSID) ;;
  Serial_print "Setup AP started. Connect to: " ;;
  Serial_println apSSID ;;
  Serial_print "AP IP address: " ;;
  emit SerialPrintlnIP ;;
  randomSeed_esp_random ;;
  server_on setupServer "/" HTTP_GET h_handleSetupRoot ;;
  server_on setupServer "/save" HTTP_POST h_handleSetupSave ;;
  server_on setupServer "/config" HTTP_POST h_handleConfigPost ;;
  emit (ServerBegin setupServer) ;;
  Serial_println "Setup web server started" ;;
  Serial_println "HTTP server started in normal mode" ;;
  Serial_println "Testing click of gate button." ;;
  Serial_println "End of the testing click of gate button." ;;
  while fuel (ret true) (handleClient setupServer ;; delay 1).

(** *** Main setup and loop *)

Definition setup (fuel : nat) : M unit :=
  emit (SerialBegin 115200) ;;
  delay 1000 ;;
  emit (PrefsBegin "config" false) ;;
  ssid <- getString "ssid" EmptyString ;;
  pass <- getString "password" EmptyString ;;
  key <- getString "apikey" EmptyString ;;
  modify (set_saved ssid pass key) ;;
  savedSSID' <- gets savedSSID ;;
  savedAPIKey' <- gets savedAPIKey ;;
  if String.eqb savedSSID' EmptyString || String.eqb savedAPIKey' EmptyString then
    Serial_println "No configuration found. Starting setup portal." ;;
    runSetupPortal fuel
  else
    emit (WiFiMode WIFI_STA) ;;
    savedPassword' <- gets savedPassword ;;
    emit (WiFiBegin savedSSID' savedPassword') ;;
    Serial_print "Connecting to WiFi" ;;
    while fuel (c <- WiFi_connected ;; ret (negb c))
      (delay 500 ;; Serial_print ".") ;;
    Serial_println EmptyString ;;
    Serial_print "Connected, IP address: " ;;
    emit SerialPrintlnIP ;;
    pinMode relayPin OUTPUT ;;
    digitalWrite relayPin false ;;
    server_on server "/open" HTTP_GET h_handleOpen ;;
    server_on server "/close" HTTP_GET h_handleClose ;;
    server_on server "/docs" HTTP_GET h_handleDocs ;;
    server_on server "/swagger.json" HTTP_GET h_handleSwaggerJSON ;;
    server_onNotFound server h_handleNotFound ;;
    emit (ServerBegin server) ;;
    Serial_println "HTTP server started in normal mode".

Definition loop : M unit :=
  handleClient server ;;
  Serial_println "Waiting 1 second." ;;
  delay 1000 ;;
  Serial_println "Asking for messsages..." ;;
  sendPostMessage.

(** The Arduino runtime: [setup] once, then [loop] for ever. *)
Definition sketch (fuel : nat) : M unit :=
  setup fuel ;;
  while fuel (ret true) loop.

End Sketch.

(** One boot cycle from a given flash content. *)
Definition boot (W : world) (fuel : nat) (flash : gmap string string)
    : outcome unit * state :=
  setup W fuel (boot_state flash).

(** ** Notions used to state the properties *)

(** The hardware part of a trace: pin configuration, pin writes, waits. *)
Definition is_hw (e : event) : bool :=
  match e with
  | PinMode _ _ | DigitalWrite _ _ | Delay _ => true
  | _ => false
  end.

Definition hw (evs : list event) : list event := List.filter is_hw evs.

(** One actuation pulse on the two relay lines. *)
Definition pulse : list event :=
  [PinMode relayPin OUTPUT; PinMode relayPinMinus OUTPUT; Delay 3000;
   PinMode relayPin INPUT; PinMode relayPinMinus INPUT].

(** Everything [openOrCloseGate] does, serial log included. *)
Definition pulse_log : list event :=
  [SerialPrintln "Open/Close started..."; PinMode relayPin OUTPUT;
   PinMode relayPinMinus OUTPUT; SerialPrintln "Clicking for 3 sec...";
   Delay 3000; SerialPrintln "Ended 3 sec click..."; PinMode relayPin INPUT;
   PinMode relayPinMinus INPUT; SerialPrintln "Open/Clocse ended"].

Definition append_trace (evs : list event) (st : state) : state :=
  set_trace (trace st ++ evs) st.

(** Hexadecimal alphabet: 0-9 and A-F. *)
Definition is_hex_char (c : ascii) : bool :=
  let n := nat_of_ascii c in
  ((48 <=? n)%nat && (n <=? 57)%nat) || ((65 <=? n)%nat && (n <=? 70)%nat).

(** The routes [setup] registers in normal mode, and those of the portal. *)
Definition normal_routes : list route :=
  [ {| r_server := server; r_uri := "/open"; r_method := HTTP_GET;
       r_handler := h_handleOpen |};
    {| r_server := server; r_uri := "/close"; r_method := HTTP_GET;
       r_handler := h_handleClose |};
    {| r_server := server; r_uri := "/docs"; r_method := HTTP_GET;
       r_handler := h_handleDocs |};
    {| r_server := server; r_uri := "/swagger.json"; r_method := HTTP_GET;
       r_handler := h_handleSwaggerJSON |} ].

Definition portal_routes : list route :=
  [ {| r_server := setupServer; r_uri := "/"; r_method := HTTP_GET;
       r_handler := h_handleSetupRoot |};
    {| r_server := setupServer; r_uri := "/save"; r_method := HTTP_POST;
       r_handler := h_handleSetupSave |};
    {| r_server := setupServer; r_uri := "/config"; r_method := HTTP_POST;
       r_handler := h_handleConfigPost |} ].

(** A device running the normal surface: routes as registered by [setup],
    and the key in RAM is the stored one. *)
Definition Operational (st : state) : Prop :=
  routes st = normal_routes
  /\ notFound st = [(server, h_handleNotFound)]
  /\ savedAPIKey st = stored (prefs st) "apikey" EmptyString.

(** A device running the setup portal. *)
Definition Provisioning (st : state) : Prop :=
  routes st = portal_routes /\ notFound st = [].

(** The store invariant of the data model: a key is stored exactly when a
    network name is. *)
Definition store_consistent (flash : gmap string string) : Prop :=
  stored flash "apikey" EmptyString <> EmptyString
  <-> stored flash "ssid" EmptyString <> EmptyString.

(** The three entries written by a provisioning request. *)
Definition put_credentials (ssid pass key : string)
    (flash : gmap string string) : gmap string string :=
  <["apikey" := key]> (<["password" := pass]> (<["ssid" := ssid]> flash)).

(** *** JSON text up to insignificant whitespace *)

Definition is_json_ws (c : ascii) : bool :=
  let n := nat_of_ascii c in
  (n =? 32)%nat || (n =? 9)%nat || (n =? 10)%nat || (n =? 13)%nat.
Definition is_quote (c : ascii) : bool := (nat_of_ascii c =? 34)%nat.
Definition is_backslash (c : ascii) : bool := (nat_of_ascii c =? 92)%nat.

Fixpoint json_compact_from (in_str esc : bool) (s : string) : string :=
  match s with
  | EmptyString => EmptyString
  | String c s' =>
      if in_str then
        String c
          (json_compact_from (if esc then true else negb (is_quote c))
             (if esc then false else is_backslash c) s')
      else if is_json_ws c then json_compact_from false false s'
      else String c (json_compact_from (is_quote c) false s')
  end.

(** A JSON text with the whitespace between its tokens removed. *)
Definition json_compact (s : string) : string := json_compact_from false false s.

(** The response bodies as the interface table documents them. *)
Definition documented_opened : string :=
  "{" +:+ quoted "status" +:+ ":" +:+ quoted "gate opened" +:+ "}".
Definition documented_closed : string :=
  "{" +:+ quoted "status" +:+ ":" +:+ quoted "gate closed" +:+ "}".
Definition documented_unauthorized : string :=
  "{" +:+ quoted "error" +:+ ":" +:+ quoted "Unauthorized" +:+ "}".

(** *** The two-key schema, following the words of the specification

    A well-formed instance is an object with the key ssid and then the key
    password, each with a string value free of escapes, with optional
    whitespace between the tokens. *)

Fixpoint skip_ws (s : string) : string :=
  match s with
  | EmptyString => EmptyString
  | String c s' => if is_json_ws c then skip_ws s' else s
  end.

Fixpoint sdrop (n : nat) (s : string) : string :=
  match n, s with
  | O, _ => s
  | S n', String _ s' => sdrop n' s'
  | S _, EmptyString => EmptyString
  end.

Definition expect (lit s : string) : option string :=
  let s := skip_ws s in
  if String.prefix lit s then Some (sdrop (String.length lit) s) else None.

Fixpoint plain_string_rest (s : string) : option string :=
  match s with
  | EmptyString => None
  | String c s' =>
      if is_quote c then Some s'
      else if is_backslash c then None
      else plain_string_rest s'
  end.

Definition plain_string (s : string) : option string :=
  s ← expect dq s; plain_string_rest s.

Definition two_key_schema_rest (body : string) : option string :=
  s ← expect "{" body;
  s ← expect (quoted "ssid") s;
  s ← expect ":" s;
  s ← plain_string s;
  s ← expect "," s;
  s ← expect (quoted "password") s;
  s ← expect ":" s;
  s ← plain_string s;
  expect "}" s.

Definition is_two_key_schema (body : string) : bool :=
  match two_key_schema_rest body with
  | Some rest => String.eqb (skip_ws rest) EmptyString
  | None => false
  end.

(** *** Relations between the state before and after a computation *)

(** [m] relates every start state to its end state by [R]. *)
Definition stable {A} (R : relation state) (m : M A) : Prop :=
  forall st, R st (snd (m st)).

(** The trace only grows, and by events satisfying [P]. *)
Definition grows (P : event -> Prop) : relation state :=
  fun st st' => exists evs, trace st' = trace st ++ evs /\ Forall P evs.

(** The component [f] of the state is kept. *)
Definition keeps {B} (f : state -> B) : relation state :=
  fun st st' => f st' = f st.

(** *** Concrete environments and requests for the examples *)

Definition quiet_world : world :=
  {| prng := fun seed n => (seed + 7 * Z.of_nat n)%Z;
     esp_random := fun _ => 12345%Z;
     wifi_connected := fun n => (2 <=? n)%nat;
     clients := fun _ => None;
     post_reply := fun _ => (404%Z, "nothing") |}.

(** An environment whose every [handleClient] finds the client [req]. *)
Definition world_with_client (req : request) : world :=
  {| prng := prng quiet_world; esp_random := esp_random quiet_world;
     wifi_connected := wifi_connected quiet_world;
     clients := fun _ => Some req;
     post_reply := post_reply quiet_world |}.

Definition get_with_auth (path auth : string) : request :=
  {| method := HTTP_GET; uri := path; headers := [("Authorization", auth)];
     args := [] |}.

Definition post_form (path : string) (fields : list (string * string)) : request :=
  {| method := HTTP_POST; uri := path; headers := []; args := fields |}.

Definition post_json (path body : string) : request :=
  {| method := HTTP_POST; uri := path; headers := []; args := [("plain", body)] |}.

(** The body of the documentation, and the same with the keys swapped. *)
Definition body_net_pw : string :=
  "{" +:+ quoted "ssid" +:+ ": " +:+ quoted "net" +:+ ", "
  +:+ quoted "password" +:+ ": " +:+ quoted "pw" +:+ "}".
Definition body_swapped : string :=
  "{" +:+ quoted "password" +:+ ": " +:+ quoted "pw" +:+ ", "
  +:+ quoted "ssid" +:+ ": " +:+ quoted "net" +:+ "}".

(** A flash content with all three entries. *)
Definition flash_net : gmap string string :=
  put_credentials "net" "pw" "0123456789ABCDEF" ∅.

(** The key [generateAPIKey] returns from a given state. *)
Definition drawn_key (W : world) (st : state) : string :=
  match generateAPIKey W st with
  | (Ret key, _) => key
  | _ => EmptyString
  end.

(** The state after the sixteen draws. *)
Definition after_key (st : state) : state :=
  set_rng (rng_seed st) (rng_pos st + 16) st.

(** The bearer check of [checkAuth], as a predicate on request and state. *)
Definition authorized (st : state) (req : request) : bool :=
  String.eqb (WebServer.header req "Authorization")
    ("Bearer " +:+ savedAPIKey st).

(** The events added to the trace between two states. *)
Definition events_since (st st' : state) : list event :=
  drop (List.length (trace st)) (trace st').

(** The 401 reply with its challenge. *)
Definition challenge : list event :=
  [SendHeader server "WWW-Authenticate" "Bearer";
   Send server 401 "application/json" unauthorized_body].

(** What one poll of the remote endpoint adds to the trace, given the
    status code and the content of the reply. *)
Definition poll_log (code : Z) (content : string) : list event :=
  [HttpBegin endpointUrl; HttpAddHeader "Content-Type" "application/json";
   HttpPOST getRequestData]
  ++ (if (code =? 200)%Z then
        [SerialPrintln ("Response Code: " +:+ WString.of_int code);
         SerialPrintln ("Response: " +:+ content)] ++ pulse_log
      else [SerialPrintln ("Error on sending POST: " +:+ WString.of_int code)]).

(** The only thing a poll changes besides the trace: one more reply of
    the environment has been consumed. *)
Definition after_poll (st : state) : state :=
  set_pos (entropy_pos st) (wifi_pos st) (client_pos st) (S (post_pos st)) st.

Definition is_HttpPOST (e : event) : bool :=
  match e with HttpPOST _ => true | _ => false end.

(** The device after booting from [flash_net] in [quiet_world]. *)
Definition normal_state : state := snd (boot quiet_world 5 flash_net).

(** Events that belong to the normal mode only: joining a network and
    starting the normal HTTP surface. *)
Definition normal_mode_event (e : event) : bool :=
  match e with
  | WiFiMode WIFI_STA | WiFiBegin _ _ | ServerBegin server => true
  | _ => false
  end.

(** Events that belong to the setup portal only: opening the access point
    and starting the setup HTTP surface. *)
Definition portal_event (e : event) : bool :=
  match e with
  | WiFiMode WIFI_AP | WiFiSoftAP _ | ServerBegin setupServer => true
  | _ => false
  end.

(** No event of the class [bad]. *)
Definition avoids (bad : event -> bool) : event -> Prop :=
  fun e => bad e = false.

(** The state in which [runSetupPortal] enters its loop. *)
Definition portal_entry (W : world) (st : state) : state :=
  snd ((emit (WiFiMode WIFI_AP) ;;
        emit (WiFiSoftAP "ESP32-Setup") ;;
        Serial_print "Setup AP started. Connect to: " ;;
        Serial_println "ESP32-Setup" ;;
        Serial_print "AP IP address: " ;;
        emit SerialPrintlnIP ;;
        randomSeed_esp_random W ;;
        server_on setupServer "/" HTTP_GET h_handleSetupRoot ;;
        server_on setupServer "/save" HTTP_POST h_handleSetupSave ;;
        server_on setupServer "/config" HTTP_POST h_handleConfigPost ;;
        emit (ServerBegin setupServer) ;;
        Serial_println "Setup web server started" ;;
        Serial_println "HTTP server started in normal mode" ;;
        Serial_println "Testing click of gate button." ;;
        Serial_println "End of the testing click of gate button.") st).

(** The state in which [setup] decides between the two modes: the stored
    values are in the globals and the serial port and store are open. *)
Definition loaded_state (flash : gmap string string) : state :=
  append_trace [SerialBegin 115200; Delay 1000; PrefsBegin "config" false]
    (set_saved (stored flash "ssid" EmptyString)
       (stored flash "password" EmptyString)
       (stored flash "apikey" EmptyString) (boot_state flash)).

(** The loop of the setup portal. *)
Definition portal_loop (W : world) (fuel : nat) : M unit :=
  while fuel (ret true) (handleClient W setupServer ;; delay 1).

(** Serve a list of requests one after the other on one server, as long
    as the device keeps running. *)
Fixpoint serve_all (W : world) (s : server_id) (reqs : list request) : M unit :=
  match reqs with
  | [] => ret tt
  | req :: reqs' => dispatch W s req ;; serve_all W s reqs'
  end.

(** The device state after a provisioning request has stored credentials,
    up to the trace. *)
Definition provisioned (W : world) (ssid pass : string) (st : state) : state :=
  set_prefs (put_credentials ssid pass (drawn_key W st)) (after_key st).

Definition conflict_reply : event :=
  Send setupServer 403 "application/json" already_set_body.
Definition missing_reply : event :=
  Send setupServer 400 "application/json" missing_body.

(** The setup portal right after it has come up on an empty store, and on
    a store that already holds credentials. *)
Definition portal_state : state := portal_entry quiet_world (boot_state ∅).
Definition portal_state_set : state :=
  portal_entry quiet_world (boot_state flash_net).

(** A store with a network name but no key. *)
Definition flash_name_only : gmap string string := <["ssid" := "net"]> ∅.
Definition portal_state_name_only : state :=
  portal_entry quiet_world (boot_state flash_name_only).

Definition is_config_post (req : request) : Prop :=
  method req = HTTP_POST /\ uri req = "/config".

(** The form of the setup page submitted with the name field left empty. *)
Definition empty_name_save : request :=
  post_form "/save" [("ssid", EmptyString); ("password", "pw")].

(** The device after the documented JSON body has been posted to /config
    of a fresh portal. *)
Definition provisioned_net_pw : state :=
  snd (dispatch quiet_world setupServer (post_json "/config" body_net_pw)
         portal_state).

(** The wait for the network in [setup]. *)
Definition wifi_wait (W : world) (fuel : nat) : M unit :=
  while fuel (c <- WiFi_connected W ;; ret (negb c))
    (delay 500 ;; Serial_print ".").

(** A body whose ssid value is a nested object. *)
Definition body_nested : string :=
  "{" +:+ quoted "ssid" +:+ ": {" +:+ quoted "a" +:+ ": " +:+ quoted "net"
  +:+ "}, " +:+ quoted "password" +:+ ": " +:+ quoted "pw" +:+ "}".

(** ** Further notions, for the properties beyond the claims *)

(** The body of the documentation with the values [ssid] and [pass]. *)
Definition two_key_body (ssid pass : string) : string :=
  "{" +:+ quoted "ssid" +:+ ": " +:+ quoted ssid +:+ ", "
  +:+ quoted "password" +:+ ": " +:+ quoted pass +:+ "}".

(** [c] occurs in [s]. *)
Fixpoint has_char (c : ascii) (s : string) : bool :=
  match s with
  | EmptyString => false
  | String d s' => Ascii.eqb c d || has_char c s'
  end.

(** The fixed text of that body before, between and after the values. *)
Definition body_open : string := "{" +:+ quoted "ssid" +:+ ": " +:+ dq.
Definition body_middle : string :=
  dq +:+ ", " +:+ quoted "password" +:+ ": " +:+ dq.
Definition body_close : string := dq +:+ "}".

(** A request that one of the four routes of the normal surface takes. *)
Definition has_normal_route (req : request) : bool :=
  http_method_eqb HTTP_GET (method req)
  && (String.eqb (uri req) "/open" || String.eqb (uri req) "/close"
      || String.eqb (uri req) "/docs" || String.eqb (uri req) "/swagger.json").

(** A GET of /open or of /close. *)
Definition is_actuation_request (req : request) : bool :=
  http_method_eqb HTTP_GET (method req)
  && (String.eqb (uri req) "/open" || String.eqb (uri req) "/close").

(** The hexadecimal digit of a value below 16, capitals for 10 to 15. *)
Definition hex_digit (r : Z) : ascii :=
  if (r <? 10)%Z then ascii_of_nat (48 + Z.to_nat r)
  else ascii_of_nat (55 + Z.to_nat r).

(** The digits of [n] consecutive draws, starting at position [from]. *)
Fixpoint key_of_draws (draw : nat -> Z) (from n : nat) : string :=
  match n with
  | O => EmptyString
  | S n' => String (hex_digit (draw from mod 16)) (key_of_draws draw (S from) n')
  end.

(** The log of [n] unsuccessful status polls of the network wait. *)
Definition wifi_dots (n : nat) : list event :=
  List.concat (repeat [Delay 500; SerialPrint "."] n).

(** The log of a boot in normal mode that was connected at poll [n]. *)
Definition normal_boot_log (ssid pass : string) (n : nat) : list event :=
  [SerialBegin 115200; Delay 1000; PrefsBegin "config" false;
   WiFiMode WIFI_STA; WiFiBegin ssid pass; SerialPrint "Connecting to WiFi"]
  ++ wifi_dots n
  ++ [SerialPrintln EmptyString; SerialPrint "Connected, IP address: ";
      SerialPrintlnIP; PinMode relayPin OUTPUT; DigitalWrite relayPin false;
      ServerBegin server; SerialPrintln "HTTP server started in normal mode"].

Definition is_ServerBegin (e : event) : bool :=
  match e with ServerBegin _ => true | _ => false end.

(** An environment in which the network is never joined. *)
Definition offline_world : world :=
  {| prng := prng quiet_world; esp_random := esp_random quiet_world;
     wifi_connected := fun _ => false;
     clients := clients quiet_world;
     post_reply := post_reply quiet_world |}.

(** An environment whose outbound POST always gets 200, with the client
    [req] pending at every [handleClient]. *)
Definition triggering_world (req : request) : world :=
  {| prng := prng quiet_world; esp_random := esp_random quiet_world;
     wifi_connected := wifi_connected quiet_world;
     clients := fun _ => Some req;
     post_reply := fun _ => (200%Z, "go") |}.

(** ** Proofs *)

(** Unfold the primitives of the monad and of the libraries. *)
Ltac run :=
  cbv [bind ret gets modify emit Serial_print Serial_println delay pinMode
       digitalWrite getString putString ESP_restart server_on server_onNotFound
       http_POST WiFi_connected randomSeed_esp_random append_trace after_key
       set_trace set_prefs set_saved set_rng set_pos set_routes
       prefs savedSSID savedPassword savedAPIKey rng_seed rng_pos entropy_pos
       wifi_pos client_pos post_pos routes notFound trace].

(** Close a goal that equates two runs up to the bracketing of the trace. *)
Ltac same_run :=
  repeat match goal with st : state |- _ => destruct st end;
  run; rewrite <- ?app_assoc; reflexivity.

(** Compute the components of states built with the setters. *)
Ltac simpl_state :=
  cbv [append_trace after_key after_poll loaded_state boot_state
       set_trace set_prefs set_saved set_rng set_pos set_routes
       prefs savedSSID savedPassword savedAPIKey rng_seed rng_pos entropy_pos
       wifi_pos client_pos post_pos routes notFound trace].

Ltac simpl_state_in H :=
  cbv [append_trace after_key after_poll loaded_state boot_state
       set_trace set_prefs set_saved set_rng set_pos set_routes
       prefs savedSSID savedPassword savedAPIKey rng_seed rng_pos entropy_pos
       wifi_pos client_pos post_pos routes notFound trace] in H.

(** *** Laws of the monad *)

Lemma bind_ret {A B} (a : A) (k : A -> M B) (st : state) :
  (x <- ret a ;; k x) st = k a st.
Proof. reflexivity. Qed.

Lemma bind_gets {A B} (f : state -> A) (k : A -> M B) (st : state) :
  (x <- gets f ;; k x) st = k (f st) st.
Proof. reflexivity. Qed.

Lemma bind_modify {B} (f : state -> state) (k : unit -> M B) (st : state) :
  (x <- modify f ;; k x) st = k tt (f st).
Proof. reflexivity. Qed.

Lemma bind_emit {B} (e : event) (k : unit -> M B) (st : state) :
  (x <- emit e ;; k x) st = k tt (append_trace [e] st).
Proof. reflexivity. Qed.

Lemma bind_assoc {A B C} (m : M A) (k : A -> M B) (h : B -> M C)
    (st : state) :
  (y <- (x <- m ;; k x) ;; h y) st = (x <- m ;; y <- k x ;; h y) st.
Proof. unfold bind. destruct (m st) as [[a | |] st']; reflexivity. Qed.

Lemma bind_run {A B} (m : M A) (k : A -> M B) (st st' : state) (a : A) :
  m st = (Ret a, st') -> (x <- m ;; k x) st = k a st'.
Proof. intros H. unfold bind. now rewrite H. Qed.

Lemma append_trace_app (a b : list event) (st : state) :
  append_trace b (append_trace a st) = append_trace (a ++ b) st.
Proof. unfold append_trace. run. now rewrite app_assoc. Qed.

(** *** Strings *)

Lemma append_cons (c : ascii) (a b : string) :
  String c a +:+ b = String c (a +:+ b).
Proof. reflexivity. Qed.

Lemma append_empty_r (a : string) : a +:+ EmptyString = a.
Proof.
  induction a as [|c a IH]; [reflexivity | now rewrite append_cons, IH].
Qed.

Lemma append_snoc (a : string) (c : ascii) (b : string) :
  (a +:+ String c EmptyString) +:+ b = a +:+ String c b.
Proof.
  induction a as [|d a IH]; [reflexivity | now rewrite !append_cons, IH].
Qed.

Lemma of_int_digit (r : Z) :
  (0 <= r < 10)%Z ->
  exists c, WString.of_int r = String c EmptyString /\ is_hex_char c = true.
Proof.
  intros Hr.
  assert (Hcases : (r = 0 \/ r = 1 \/ r = 2 \/ r = 3 \/ r = 4 \/ r = 5
                    \/ r = 6 \/ r = 7 \/ r = 8 \/ r = 9)%Z) by lia.
  repeat (destruct Hcases as [-> | Hcases]); try subst r;
    eexists; split; reflexivity.
Qed.

Lemma letter_hex (r : Z) :
  (10 <= r < 16)%Z -> is_hex_char (WString.char (65 + (r - 10))) = true.
Proof.
  intros Hr.
  assert (Hcases : (r = 10 \/ r = 11 \/ r = 12 \/ r = 13 \/ r = 14
                    \/ r = 15)%Z) by lia.
  repeat (destruct Hcases as [-> | Hcases]); try subst r; reflexivity.
Qed.

(** *** The key generator *)

Lemma random_0_16 (W : world) (st : state) :
  exists r, (0 <= r < 16)%Z
    /\ random W 0 16 st = (Ret r, set_rng (rng_seed st) (S (rng_pos st)) st).
Proof.
  unfold random. simpl (16 <=? 0)%Z. cbv iota.
  eexists; split; [| reflexivity].
  replace (16 - 0)%Z with 16%Z by reflexivity.
  pose proof (Z.mod_pos_bound (prng W (rng_seed st) (rng_pos st)) 16). lia.
Qed.

Lemma generateAPIKey_loop_runs (W : world) (n : nat) :
  forall key st,
    exists k,
      generateAPIKey_loop W n key st
      = (Ret (key +:+ k), set_rng (rng_seed st) (rng_pos st + n) st)
      /\ String.length k = n
      /\ forallb is_hex_char (list_ascii_of_string k) = true.
Proof.
  induction n as [|n IH]; intros key st.
  - exists EmptyString. repeat split.
    cbn [generateAPIKey_loop]. unfold ret.
    rewrite append_empty_r. destruct st. run. now rewrite Nat.add_0_r.
  - destruct (random_0_16 W st) as (r & Hr & Hrun).
    cbn [generateAPIKey_loop]. unfold bind at 1. rewrite Hrun.
    assert (Hc : exists c, is_hex_char c = true
              /\ (if (r <? 10)%Z then key +:+ WString.of_int r
                  else key +:+ WString.of_char (WString.char (65 + (r - 10))))
                 = key +:+ String c EmptyString).
    { destruct (Z.ltb_spec r 10).
      - destruct (of_int_digit r) as (c & -> & Hc); [lia | eauto].
      - eexists; split; [apply (letter_hex r); lia | reflexivity]. }
    destruct Hc as (c & Hc & ->).
    destruct (IH (key +:+ String c EmptyString)
                 (set_rng (rng_seed st) (S (rng_pos st)) st))
      as (k & Hk & Hlen & Hhex).
    exists (String c k). split; [| split].
    + rewrite Hk. f_equal.
      * f_equal. apply append_snoc.
      * destruct st. run. f_equal. lia.
    + simpl. now rewrite Hlen.
    + simpl. now rewrite Hc, Hhex.
Qed.

Lemma generateAPIKey_runs (W : world) (st : state) :
  generateAPIKey W st = (Ret (drawn_key W st), after_key st).
Proof.
  unfold drawn_key, generateAPIKey.
  destruct (generateAPIKey_loop_runs W 16 EmptyString st) as (k & -> & _).
  reflexivity.
Qed.

Lemma drawn_key_hex16 (W : world) (st : state) :
  String.length (drawn_key W st) = 16%nat
  /\ forallb is_hex_char (list_ascii_of_string (drawn_key W st)) = true.
Proof.
  unfold drawn_key, generateAPIKey.
  destruct (generateAPIKey_loop_runs W 16 EmptyString st) as (k & -> & Hl & Hh).
  simpl. auto.
Qed.

Lemma drawn_key_nonempty (W : world) (st : state) :
  drawn_key W st <> EmptyString.
Proof.
  destruct (drawn_key_hex16 W st) as [Hl _].
  intros E. rewrite E in Hl. discriminate.
Qed.

(** C6.  Whatever the state of the pseudo-random source, [generateAPIKey]
    returns, and the key has exactly 16 characters, each of them a decimal
    digit or one of the capital letters A to F. *)
Theorem generateAPIKey_hex16 (W : world) (st : state) :
  exists key st',
    generateAPIKey W st = (Ret key, st')
    /\ String.length key = 16%nat
    /\ forallb is_hex_char (list_ascii_of_string key) = true.
Proof.
  exists (drawn_key W st), (after_key st).
  split; [apply generateAPIKey_runs | apply drawn_key_hex16].
Qed.

(** *** The bearer check *)

Lemma header_without_hasHeader (req : request) (name : string) :
  WebServer.hasHeader req name = false ->
  WebServer.header req name = EmptyString.
Proof.
  unfold WebServer.hasHeader, WebServer.header.
  induction (headers req) as [|[k v] hs IH]; [reflexivity |].
  cbn [existsb List.find fst snd]. intros H.
  apply orb_false_iff in H as [Hkv Hrest].
  destruct (WebServer.equalsIgnoreCase k name).
  - cbn [andb negb] in Hkv. apply negb_false_iff, String.eqb_eq in Hkv.
    exact Hkv.
  - apply IH, Hrest.
Qed.

Lemma bearer_nonempty (key : string) : "Bearer " +:+ key <> EmptyString.
Proof. discriminate. Qed.

Lemma checkAuth_eq (W : world) (req : request) (st : state) :
  checkAuth req st = (Ret (authorized st req), st).
Proof.
  unfold checkAuth, authorized.
  destruct (WebServer.hasHeader req "Authorization") eqn:Hh; cbn [negb].
  - run. now destruct (String.eqb _ _).
  - rewrite (header_without_hasHeader _ _ Hh). reflexivity.
Qed.

Lemma authorized_iff (st : state) (req : request) :
  authorized st req = true
  <-> WebServer.header req "Authorization" = "Bearer " +:+ savedAPIKey st.
Proof. apply String.eqb_eq. Qed.

Lemma missing_header_unauthorized (st : state) (req : request) :
  WebServer.hasHeader req "Authorization" = false -> authorized st req = false.
Proof.
  intros Hh. unfold authorized. now rewrite (header_without_hasHeader _ _ Hh).
Qed.

(** *** Exact runs of the handlers of the normal surface *)

Lemma openOrCloseGate_run (st : state) :
  openOrCloseGate st = (Ret tt, append_trace pulse_log st).
Proof. unfold openOrCloseGate. same_run. Qed.

Lemma hw_pulse_log : hw pulse_log = pulse.
Proof. reflexivity. Qed.

Lemma handleUnauthorized_run (st : state) :
  handleUnauthorized st = (Ret tt, append_trace challenge st).
Proof. unfold handleUnauthorized. same_run. Qed.

Lemma handleOpen_run (W : world) (req : request) (st : state) :
  handleOpen req st
  = (Ret tt,
     append_trace
       (if authorized st req
        then pulse_log ++ [Send server 200 "application/json" opened_body]
        else challenge) st).
Proof.
  unfold handleOpen, bind at 1. rewrite (checkAuth_eq W).
  destruct (authorized st req); cbn [negb].
  - unfold bind at 1. rewrite openOrCloseGate_run. same_run.
  - apply handleUnauthorized_run.
Qed.

Lemma handleClose_run (W : world) (req : request) (st : state) :
  handleClose req st
  = (Ret tt,
     append_trace
       (if authorized st req
        then pulse_log ++ [Send server 200 "application/json" closed_body]
        else challenge) st).
Proof.
  unfold handleClose, bind at 1. rewrite (checkAuth_eq W).
  destruct (authorized st req); cbn [negb].
  - unfold bind at 1. rewrite openOrCloseGate_run. same_run.
  - apply handleUnauthorized_run.
Qed.

Lemma events_since_append (evs : list event) (st : state) :
  events_since st (append_trace evs st) = evs.
Proof. unfold events_since. run. apply drop_app_length. Qed.

Lemma events_since_append_after (W : world) (ssid pass : string)
    (evs : list event) (st : state) :
  events_since st (append_trace evs (provisioned W ssid pass st)) = evs.
Proof. unfold events_since. simpl_state. apply drop_app_length. Qed.

Lemma sendPostMessage_run (W : world) (st : state) :
  sendPostMessage W st
  = (Ret tt,
     append_trace
       (poll_log (fst (post_reply W (post_pos st)))
                 (snd (post_reply W (post_pos st))))
       (after_poll st)).
Proof.
  unfold sendPostMessage, poll_log, after_poll. run.
  destruct (post_reply W _) as [code content]. cbn [fst snd].
  destruct (code =? 200)%Z.
  - rewrite openOrCloseGate_run. same_run.
  - same_run.
Qed.

(** *** Routing *)

Lemma dispatch_normal (W : world) (st : state) (req : request) :
  Operational st ->
  dispatch W server req st
  = if http_method_eqb HTTP_GET (method req) then
      if String.eqb (uri req) "/open" then handleOpen req st
      else if String.eqb (uri req) "/close" then handleClose req st
      else if String.eqb (uri req) "/docs" then handleDocs st
      else if String.eqb (uri req) "/swagger.json" then handleSwaggerJSON st
      else handleNotFound req st
    else handleNotFound req st.
Proof.
  intros (Hr & Hnf & _).
  unfold dispatch. rewrite bind_gets, Hr.
  unfold normal_routes, route_matches.
  cbn [List.find r_server r_method r_uri r_handler server_id_eqb andb].
  rewrite (String.eqb_sym "/open"), (String.eqb_sym "/close"),
    (String.eqb_sym "/docs"), (String.eqb_sym "/swagger.json").
  destruct (http_method_eqb HTTP_GET (method req)); cbn [andb].
  - repeat (destruct (String.eqb (uri req) _); [reflexivity |]).
    rewrite bind_gets, Hnf. reflexivity.
  - rewrite bind_gets, Hnf. reflexivity.
Qed.

Lemma dispatch_normal_route (W : world) (st : state) (req : request) :
  Operational st ->
  method req = HTTP_GET ->
  dispatch W server req st
  = if String.eqb (uri req) "/open" then handleOpen req st
    else if String.eqb (uri req) "/close" then handleClose req st
    else if String.eqb (uri req) "/docs" then handleDocs st
    else if String.eqb (uri req) "/swagger.json" then handleSwaggerJSON st
    else handleNotFound req st.
Proof.
  intros Hop Hm. rewrite (dispatch_normal W st req Hop), Hm. reflexivity.
Qed.

Lemma dispatch_portal_route (W : world) (st : state) (req : request) :
  Provisioning st ->
  method req = HTTP_POST ->
  dispatch W setupServer req st
  = if String.eqb (uri req) "/save" then handleSetupSave W req st
    else if String.eqb (uri req) "/config" then handleConfigPost W req st
    else emit (Send setupServer 404 "text/plain" ("Not found: " +:+ uri req)) st.
Proof.
  intros (Hr & Hnf) Hm.
  unfold dispatch. rewrite bind_gets, Hr.
  unfold portal_routes, route_matches.
  cbn [List.find r_server r_method r_uri r_handler server_id_eqb andb].
  rewrite Hm. cbn [http_method_eqb andb].
  rewrite (String.eqb_sym "/save"), (String.eqb_sym "/config").
  repeat (destruct (String.eqb (uri req) _); [reflexivity |]).
  rewrite bind_gets, Hnf. reflexivity.
Qed.

(** C7.  Every call of [openOrCloseGate] returns after exactly this on the
    two relay lines: both configured as outputs, a wait of 3000 ms, both
    configured back as inputs.  The handler of /open and the handler of
    /close put the same hardware sequence on the lines for every request:
    that pulse when the bearer check passes, nothing when it fails. *)
Theorem actuation_sequence (W : world) (st : state) (req : request) :
  openOrCloseGate st = (Ret tt, append_trace pulse_log st)
  /\ hw (events_since st (snd (openOrCloseGate st)))
     = [PinMode 23 OUTPUT; PinMode 22 OUTPUT; Delay 3000;
        PinMode 23 INPUT; PinMode 22 INPUT]
  /\ hw (events_since st (snd (handleOpen req st)))
     = (if authorized st req then pulse else [])
  /\ hw (events_since st (snd (handleClose req st)))
     = hw (events_since st (snd (handleOpen req st))).
Proof.
  rewrite openOrCloseGate_run, (handleOpen_run W), (handleClose_run W).
  cbn [snd]. rewrite !events_since_append.
  repeat split; destruct (authorized st req); reflexivity.
Qed.

(** C8.  One poll of the remote endpoint always returns; the relay lines
    are pulsed exactly when the status code of the reply is 200, whatever
    the content of the reply; for any other code the poll only logs the
    code.  In both cases there is a single POST and nothing else in the
    device state changes.  *)
Theorem poll_actuates_iff_200 (W : world) (st : state) :
  let code := fst (post_reply W (post_pos st)) in
  let content := snd (post_reply W (post_pos st)) in
  sendPostMessage W st
  = (Ret tt, append_trace (poll_log code content) (after_poll st))
  /\ hw (poll_log code content) = (if (code =? 200)%Z then pulse else [])
  /\ (hw (poll_log code content) = pulse <-> code = 200%Z)
  /\ (hw (poll_log code content) = [] <-> code <> 200%Z)
  /\ List.length (List.filter is_HttpPOST (poll_log code content)) = 1%nat
  /\ prefs (snd (sendPostMessage W st)) = prefs st.
Proof.
  intros code content. rewrite sendPostMessage_run.
  fold code content. unfold poll_log.
  destruct (Z.eqb_spec code 200) as [E | E].
  - repeat split; try reflexivity; try discriminate; try congruence.
  - repeat split; try reflexivity; try discriminate; try congruence.
Qed.

(** C1.  On a device running the normal surface, a GET of /open or /close
    whose Authorization header is exactly Bearer, a space and the stored
    key is answered with 200 and the documented JSON object, after exactly
    one complete pulse of the relay lines.  When the header is missing or
    has any other value the answer is 401 with a WWW-Authenticate header,
    the relay lines are not touched, and the state changes in nothing but
    the two response events added to the trace. *)
Theorem bearer_gate (W : world) (st : state) (req : request) :
  Operational st ->
  method req = HTTP_GET ->
  uri req = "/open" \/ uri req = "/close" ->
  let expected := "Bearer " +:+ stored (prefs st) "apikey" EmptyString in
  (WebServer.header req "Authorization" = expected ->
   exists body,
     dispatch W server req st
     = (Ret tt,
        append_trace
          (pulse_log ++ [Send server 200 "application/json" body]) st)
     /\ hw (pulse_log ++ [Send server 200 "application/json" body]) = pulse
     /\ json_compact body
        = (if String.eqb (uri req) "/open" then documented_opened
           else documented_closed))
  /\ (WebServer.hasHeader req "Authorization" = false
      \/ WebServer.header req "Authorization" <> expected ->
      dispatch W server req st
      = (Ret tt,
         append_trace
           [SendHeader server "WWW-Authenticate" "Bearer";
            Send server 401 "application/json" documented_unauthorized] st)
      /\ hw [SendHeader server "WWW-Authenticate" "Bearer";
             Send server 401 "application/json" documented_unauthorized] = []).
Proof.
  intros Hop Hm Hu expected.
  pose proof Hop as (_ & _ & Hkey).
  assert (Hauth : authorized st req = true
                  <-> WebServer.header req "Authorization" = expected).
  { unfold expected. rewrite <- Hkey. apply authorized_iff. }
  rewrite (dispatch_normal_route W st req Hop Hm).
  split.
  - intros Hh. apply Hauth in Hh.
    destruct Hu as [-> | ->]; cbn [String.eqb Ascii.eqb Bool.eqb].
    + rewrite (handleOpen_run W), Hh. eexists. repeat split.
    + rewrite (handleClose_run W), Hh. eexists. repeat split.
  - intros Hh.
    assert (Hno : authorized st req = false).
    { destruct Hh as [Hh | Hh].
      - now apply missing_header_unauthorized.
      - destruct (authorized st req) eqn:E; [| reflexivity].
        exfalso. apply Hh, Hauth. reflexivity. }
    destruct Hu as [-> | ->]; cbn [String.eqb Ascii.eqb Bool.eqb].
    + rewrite (handleOpen_run W), Hno. split; reflexivity.
    + rewrite (handleClose_run W), Hno. split; reflexivity.
Qed.

Lemma bearer_gate_witness :
  Operational normal_state
  /\ method (get_with_auth "/open" "Bearer 0123456789ABCDEF") = HTTP_GET
  /\ (exists body,
        dispatch quiet_world server
          (get_with_auth "/open" "Bearer 0123456789ABCDEF") normal_state
        = (Ret tt,
           append_trace
             (pulse_log ++ [Send server 200 "application/json" body])
             normal_state))
  /\ dispatch quiet_world server
       (get_with_auth "/close" "Bearer 0123456789ABCDEG") normal_state
     = (Ret tt,
        append_trace
          [SendHeader server "WWW-Authenticate" "Bearer";
           Send server 401 "application/json" documented_unauthorized]
          normal_state).
Proof.
  assert (Hop : Operational normal_state).
  { repeat split; vm_compute; reflexivity. }
  split; [exact Hop |]. split; [reflexivity |]. split.
  - destruct (bearer_gate quiet_world normal_state
                (get_with_auth "/open" "Bearer 0123456789ABCDEF") Hop
                eq_refl (or_introl eq_refl)) as [Hok _].
    destruct Hok as (body & Hrun & _); [vm_compute; reflexivity |].
    exists body. exact Hrun.
  - destruct (bearer_gate quiet_world normal_state
                (get_with_auth "/close" "Bearer 0123456789ABCDEG") Hop
                eq_refl (or_intror eq_refl)) as [_ Hbad].
    apply Hbad. right. vm_compute. discriminate.
Defined.

(** *** Relations kept by every step of a computation *)

#[local] Instance grows_preorder (P : event -> Prop) : PreOrder (grows P).
Proof.
  split.
  - intros st. exists []. split; [now rewrite app_nil_r | constructor].
  - intros a b c (e1 & H1 & F1) (e2 & H2 & F2).
    exists (e1 ++ e2). split.
    + now rewrite H2, H1, app_assoc.
    + apply Forall_app; auto.
Qed.

#[local] Instance keeps_preorder {B} (f : state -> B) : PreOrder (keeps f).
Proof.
  split.
  - intros st. reflexivity.
  - intros a b c H1 H2. unfold keeps in *. congruence.
Qed.

Lemma grows_emit (P : event -> Prop) (e : event) (st : state) :
  P e -> grows P st (append_trace [e] st).
Proof. intros H. exists [e]. split; [reflexivity | repeat constructor; exact H]. Qed.

Lemma grows_silent (P : event -> Prop) (st st' : state) :
  trace st' = trace st -> grows P st st'.
Proof. intros H. exists []. split; [now rewrite app_nil_r | constructor]. Qed.

Section Stable.

Context (R : relation state) `{!PreOrder R}.

Lemma stable_ret {A} (a : A) : stable R (ret a).
Proof. intros st. reflexivity. Qed.

Lemma stable_gets {A} (f : state -> A) : stable R (gets f).
Proof. intros st. reflexivity. Qed.

Lemma stable_spin {A} : stable R (fun st => (@Spin A, st)).
Proof. intros st. reflexivity. Qed.

Lemma stable_bind {A B} (m : M A) (k : A -> M B) :
  stable R m -> (forall a, stable R (k a)) -> stable R (x <- m ;; k x).
Proof.
  intros Hm Hk st. unfold bind. specialize (Hm st).
  destruct (m st) as [[a | |] st']; cbn [snd] in *; auto.
  transitivity st'; [exact Hm | apply Hk].
Qed.

Lemma stable_while (fuel : nat) (cond : M bool) (body : M unit) :
  stable R cond -> stable R body -> stable R (while fuel cond body).
Proof.
  intros Hc Hb. induction fuel as [|fuel IH]; cbn [while].
  - apply stable_spin.
  - apply stable_bind; [exact Hc |]. intros [|]; [| apply stable_ret].
    apply stable_bind; [exact Hb | intros _; exact IH].
Qed.

Lemma stable_modify (f : state -> state) :
  (forall st, R st (f st)) -> stable R (modify f).
Proof. intros H st. apply H. Qed.

Lemma stable_emit (e : event) :
  (forall st, R st (append_trace [e] st)) -> stable R (emit e).
Proof. intros H st. apply H. Qed.

Lemma stable_restart :
  (forall st, R st (append_trace [EspRestart] st)) -> stable R ESP_restart.
Proof. intros H st. apply H. Qed.

Lemma stable_random (W : world) (a b : Z) :
  (forall s p st, R st (set_rng s p st)) -> stable R (random W a b).
Proof.
  intros H st. unfold random. destruct (b <=? a)%Z; cbn [snd];
    [reflexivity | apply H].
Qed.

Lemma stable_generateAPIKey_loop (W : world) (n : nat) :
  (forall s p st, R st (set_rng s p st)) ->
  forall key, stable R (generateAPIKey_loop W n key).
Proof.
  intros H. induction n as [|n IH]; intros key; cbn [generateAPIKey_loop].
  - apply stable_ret.
  - apply stable_bind; [now apply stable_random | intros r; apply IH].
Qed.

Lemma stable_generateAPIKey (W : world) :
  (forall s p st, R st (set_rng s p st)) -> stable R (generateAPIKey W).
Proof.
  intros H. unfold generateAPIKey. apply stable_generateAPIKey_loop. exact H.
Qed.

Lemma stable_randomSeed (W : world) :
  (forall s p st, R st (set_rng s p st)) ->
  (forall e w c p st, R st (set_pos e w c p st)) ->
  stable R (randomSeed_esp_random W).
Proof.
  intros H1 H2 st. unfold randomSeed_esp_random.
  destruct (_ =? 0)%Z; cbn [snd]; [apply H2 |].
  etransitivity; [apply H2 | apply H1].
Qed.

Lemma stable_WiFi_connected (W : world) :
  (forall e w c p st, R st (set_pos e w c p st)) -> stable R (WiFi_connected W).
Proof. intros H st. apply H. Qed.

Lemma stable_http_POST (W : world) (body : string) :
  (forall e w c p st, R st (set_pos e w c p st)) ->
  (forall st, R st (append_trace [HttpPOST body] st)) ->
  stable R (http_POST W body).
Proof.
  intros H1 H2 st. unfold http_POST. cbn [snd].
  transitivity (after_poll st); [apply H1 | apply H2].
Qed.

End Stable.

Create HintDb sketch.

#[local] Hint Unfold Serial_print Serial_println delay pinMode digitalWrite
  getString putString server_on server_onNotFound checkAuth handleUnauthorized
  openOrCloseGate handleOpen handleClose handleDocs handleSwaggerJSON
  handleNotFound handleSetupRoot handleSetupSave handleConfigPost
  sendPostMessage run_handler dispatch handleClient loop runSetupPortal
  : sketch.

(** One step of a computation is related by [grows P] or by [keeps f]. *)
Ltac solve_rel :=
  intros;
  first
    [ unfold keeps; reflexivity
    | apply grows_emit; first [reflexivity | exact I]
    | apply grows_silent; reflexivity ].

(** Decompose a computation of the sketch along its syntax. *)
Ltac stable_step :=
  lazymatch goal with
  | |- forall _, _ => intros ?
  | |- stable _ (ret _) => apply stable_ret
  | |- stable _ (gets _) => apply stable_gets
  | |- stable _ (bind _ _) => apply stable_bind
  | |- stable _ (while _ _ _) => apply stable_while
  | |- stable _ (generateAPIKey _) => apply stable_generateAPIKey
  | |- stable _ (modify _) => apply stable_modify
  | |- stable _ (emit _) => apply stable_emit
  | |- stable _ ESP_restart => apply stable_restart
  | |- stable _ (random _ _ _) => apply stable_random
  | |- stable _ (randomSeed_esp_random _) => apply stable_randomSeed
  | |- stable _ (WiFi_connected _) => apply stable_WiFi_connected
  | |- stable _ (http_POST _ _) => apply stable_http_POST
  | |- stable _ (if ?b then _ else _) => destruct b
  | |- stable _ (match ?x with _ => _ end) => destruct x
  | |- PreOrder _ => exact _
  | |- _ => solve_rel
  end.

Ltac stable_tac := autounfold with sketch; repeat stable_step.

Lemma handleClient_grows (W : world) (s : server_id) (bad : event -> bool) :
  (forall x k v, bad (SendHeader x k v) = false) ->
  (forall x c t b, bad (Send x c t b) = false) ->
  (forall x c t d, bad (SendP x c t d) = false) ->
  (forall t, bad (SerialPrintln t) = false) ->
  (forall p m, bad (PinMode p m) = false) ->
  (forall ms, bad (Delay ms) = false) ->
  bad EspRestart = false ->
  stable (grows (avoids bad)) (handleClient W s).
Proof.
  intros H1 H2 H3 H4 H5 H6 H7.
  assert (He : forall e,
             match e with
             | SendHeader _ _ _ | Send _ _ _ _ | SendP _ _ _ _
             | SerialPrintln _ | PinMode _ _ | Delay _ | EspRestart => True
             | _ => False
             end -> forall st, grows (avoids bad) st (append_trace [e] st)).
  { intros e He st. apply grows_emit. unfold avoids.
    destruct e; try contradiction; auto. }
  stable_tac; try (apply He; exact I).
Qed.

(** *** Loops *)

Lemma while_true_never_returns (fuel : nat) (body : M unit) (st : state) :
  fst (while fuel (ret true) body st) <> Ret tt.
Proof.
  revert st. induction fuel as [|fuel IH]; intros st; cbn [while].
  - discriminate.
  - rewrite bind_ret. unfold bind.
    destruct (body st) as [[[] | |] st']; cbn [fst];
      [apply IH | discriminate | discriminate].
Qed.

Lemma grows_In (P : event -> Prop) {A} (m : M A) (st : state) (e : event) :
  stable (grows P) m -> In e (trace st) -> In e (trace (snd (m st))).
Proof.
  intros Hm Hin. destruct (Hm st) as (evs & -> & _).
  apply in_or_app. now left.
Qed.

Lemma grows_avoids (bad : event -> bool) {A} (m : M A) (st : state) :
  stable (grows (avoids bad)) m ->
  existsb bad (trace st) = false ->
  existsb bad (trace (snd (m st))) = false.
Proof.
  intros Hm Hst. destruct (Hm st) as (evs & -> & Hevs).
  rewrite existsb_app, Hst. cbn [orb].
  induction Hevs as [|e evs He _ IH]; [reflexivity |].
  cbn [existsb]. now rewrite He, IH.
Qed.

(** *** The setup portal *)

Lemma runSetupPortal_eq (W : world) (fuel : nat) (st : state) :
  runSetupPortal W fuel st = portal_loop W fuel (portal_entry W st).
Proof.
  unfold runSetupPortal, portal_entry, portal_loop. destruct st. run.
  destruct (_ =? 0)%Z; reflexivity.
Qed.

Lemma portal_entry_trace (W : world) (st : state) :
  trace (portal_entry W st)
  = trace st
    ++ [WiFiMode WIFI_AP; WiFiSoftAP "ESP32-Setup";
        SerialPrint "Setup AP started. Connect to: ";
        SerialPrintln "ESP32-Setup"; SerialPrint "AP IP address: ";
        SerialPrintlnIP; ServerBegin setupServer;
        SerialPrintln "Setup web server started";
        SerialPrintln "HTTP server started in normal mode";
        SerialPrintln "Testing click of gate button.";
        SerialPrintln "End of the testing click of gate button."].
Proof.
  unfold portal_entry. destruct st. run.
  destruct (_ =? 0)%Z; cbn [snd trace]; rewrite <- ?app_assoc; reflexivity.
Qed.

Lemma portal_entry_routes (W : world) (st : state) :
  routes (portal_entry W st) = routes st ++ portal_routes
  /\ notFound (portal_entry W st) = notFound st
  /\ prefs (portal_entry W st) = prefs st.
Proof.
  unfold portal_entry. destruct st. run.
  destruct (_ =? 0)%Z; cbn [snd routes notFound prefs];
    rewrite <- ?app_assoc; repeat split; reflexivity.
Qed.

Lemma portal_loop_never_returns (W : world) (fuel : nat) (st : state) :
  fst (portal_loop W fuel st) <> Ret tt.
Proof. apply while_true_never_returns. Qed.

Lemma portal_loop_avoids_normal (W : world) (fuel : nat) :
  stable (grows (avoids normal_mode_event)) (portal_loop W fuel).
Proof.
  unfold portal_loop. apply stable_while; [exact _ | stable_tac |].
  apply stable_bind; [exact _ | | intros _; stable_tac].
  apply handleClient_grows; reflexivity.
Qed.

(** *** The mode decision of [setup] *)

Lemma setup_unprovisioned (W : world) (fuel : nat) (flash : gmap string string) :
  stored flash "ssid" EmptyString = EmptyString
  \/ stored flash "apikey" EmptyString = EmptyString ->
  setup W fuel (boot_state flash)
  = runSetupPortal W fuel
      (append_trace
         [SerialPrintln "No configuration found. Starting setup portal."]
         (loaded_state flash)).
Proof.
  intros H. unfold setup, loaded_state, boot_state. run.
  assert (Hc : String.eqb (stored flash "ssid" EmptyString) EmptyString
               || String.eqb (stored flash "apikey" EmptyString) EmptyString
               = true).
  { destruct H as [-> | ->]; [reflexivity | apply orb_true_r]. }
  rewrite Hc. reflexivity.
Qed.

Lemma setup_provisioned_trace (W : world) (fuel : nat)
    (flash : gmap string string) :
  stored flash "ssid" EmptyString <> EmptyString ->
  stored flash "apikey" EmptyString <> EmptyString ->
  In (WiFiBegin (stored flash "ssid" EmptyString)
        (stored flash "password" EmptyString))
     (trace (snd (setup W fuel (boot_state flash))))
  /\ existsb portal_event (trace (snd (setup W fuel (boot_state flash))))
     = false.
Proof.
  intros Hs Hk.
  apply String.eqb_neq in Hs, Hk.
  unfold setup, delay, getString.
  rewrite !bind_emit, !bind_gets, bind_modify, !bind_gets.
  simpl_state. rewrite Hs, Hk. cbn [orb]. split.
  - rewrite bind_emit, bind_gets, bind_emit.
    apply (grows_In (fun _ => True)); [stable_tac |].
    simpl_state. apply in_or_app. right. now left.
  - apply grows_avoids; [stable_tac | reflexivity].
Qed.

(** Without a stored name or key, boot runs the setup portal and nothing
    of the normal mode, for as long as it runs. *)
Lemma boot_unprovisioned (W : world) (fuel : nat) (flash : gmap string string) :
  stored flash "ssid" EmptyString = EmptyString
  \/ stored flash "apikey" EmptyString = EmptyString ->
  fst (boot W fuel flash) <> Ret tt
  /\ In (WiFiMode WIFI_AP) (trace (snd (boot W fuel flash)))
  /\ In (WiFiSoftAP "ESP32-Setup") (trace (snd (boot W fuel flash)))
  /\ In (ServerBegin setupServer) (trace (snd (boot W fuel flash)))
  /\ existsb normal_mode_event (trace (snd (boot W fuel flash))) = false.
Proof.
  intros H. unfold boot.
  rewrite (setup_unprovisioned W fuel flash H), runSetupPortal_eq.
  split; [apply portal_loop_never_returns |].
  set (st1 := portal_entry W _).
  assert (Htr : trace st1
                = [SerialBegin 115200; Delay 1000; PrefsBegin "config" false;
                   SerialPrintln
                     "No configuration found. Starting setup portal.";
                   WiFiMode WIFI_AP; WiFiSoftAP "ESP32-Setup";
                   SerialPrint "Setup AP started. Connect to: ";
                   SerialPrintln "ESP32-Setup"; SerialPrint "AP IP address: ";
                   SerialPrintlnIP; ServerBegin setupServer;
                   SerialPrintln "Setup web server started";
                   SerialPrintln "HTTP server started in normal mode";
                   SerialPrintln "Testing click of gate button.";
                   SerialPrintln "End of the testing click of gate button."]).
  { subst st1. rewrite portal_entry_trace. reflexivity. }
  pose proof (portal_loop_avoids_normal W fuel) as Hloop.
  repeat split.
  - apply (grows_In _ _ _ _ Hloop). rewrite Htr. cbn. tauto.
  - apply (grows_In _ _ _ _ Hloop). rewrite Htr. cbn. tauto.
  - apply (grows_In _ _ _ _ Hloop). rewrite Htr. cbn. tauto.
  - apply (grows_avoids _ _ _ Hloop). rewrite Htr. reflexivity.
Qed.

(** C2.  Boot reads the three stored values.  If the network name or the
    API key is empty, the boot cycle opens the access point and starts the
    setup HTTP surface, never returns from the portal however long it runs,
    and never joins a network or starts the normal surface.  If both are
    non-empty, boot asks to join the stored network with the stored secret
    and never opens the access point or starts the setup surface. *)
Theorem boot_mode_selection (W : world) (fuel : nat)
    (flash : gmap string string) :
  let ssid := stored flash "ssid" EmptyString in
  let pass := stored flash "password" EmptyString in
  let key := stored flash "apikey" EmptyString in
  let tr := trace (snd (boot W fuel flash)) in
  (ssid = EmptyString \/ key = EmptyString ->
   fst (boot W fuel flash) <> Ret tt
   /\ In (WiFiMode WIFI_AP) tr
   /\ In (WiFiSoftAP "ESP32-Setup") tr
   /\ In (ServerBegin setupServer) tr
   /\ existsb normal_mode_event tr = false)
  /\ (ssid <> EmptyString /\ key <> EmptyString ->
      In (WiFiBegin ssid pass) tr
      /\ existsb portal_event tr = false).
Proof.
  intros ssid pass key tr. split.
  - apply boot_unprovisioned.
  - intros [Hs Hk]. apply setup_provisioned_trace; assumption.
Qed.

Lemma boot_mode_selection_witness :
  (stored (∅ : gmap string string) "ssid" EmptyString = EmptyString
   /\ fst (boot quiet_world 3 ∅) <> Ret tt
   /\ In (ServerBegin setupServer) (trace (snd (boot quiet_world 3 ∅)))
   /\ existsb normal_mode_event (trace (snd (boot quiet_world 3 ∅))) = false)
  /\ (stored flash_net "ssid" EmptyString <> EmptyString
      /\ stored flash_net "apikey" EmptyString <> EmptyString
      /\ In (WiFiBegin "net" "pw") (trace (snd (boot quiet_world 3 flash_net)))
      /\ existsb portal_event (trace (snd (boot quiet_world 3 flash_net)))
         = false).
Proof.
  split.
  - destruct (boot_mode_selection quiet_world 3 ∅) as [Hportal _].
    destruct Hportal as (H1 & _ & _ & H4 & H5); [left; reflexivity |].
    repeat split; assumption.
  - assert (Hs : stored flash_net "ssid" EmptyString <> EmptyString)
      by (vm_compute; discriminate).
    assert (Hk : stored flash_net "apikey" EmptyString <> EmptyString)
      by (vm_compute; discriminate).
    destruct (boot_mode_selection quiet_world 3 flash_net) as [_ Hnormal].
    destruct (Hnormal (conj Hs Hk)) as [H1 H2].
    repeat split; assumption.
Defined.

(** *** Exact runs of the handlers of the setup portal *)

Lemma handleSetupSave_run (W : world) (req : request) (st : state) :
  handleSetupSave W req st
  = if WebServer.hasArg req "ssid" && WebServer.hasArg req "password" then
      (Reboot,
       append_trace
         [Send setupServer 200 "text/html" (saved_page (drawn_key W st));
          Delay 2000; EspRestart]
         (provisioned W (WebServer.arg req "ssid")
            (WebServer.arg req "password") st))
    else
      (Ret tt,
       append_trace
         [Send setupServer 400 "text/html" "Missing SSID or password"] st).
Proof.
  unfold handleSetupSave.
  destruct (WebServer.hasArg req "ssid" && WebServer.hasArg req "password");
    [| reflexivity].
  rewrite (bind_run _ _ _ _ _ (generateAPIKey_runs W st)).
  unfold provisioned, put_credentials. same_run.
Qed.

Lemma handleConfigPost_run (W : world) (req : request) (st : state) :
  handleConfigPost W req st
  = if negb (String.eqb (stored (prefs st) "ssid" EmptyString) EmptyString)
    then (Ret tt, append_trace [conflict_reply] st)
    else if String.eqb (fst (config_fields req)) EmptyString
            || String.eqb (snd (config_fields req)) EmptyString
    then (Ret tt, append_trace [missing_reply] st)
    else
      (Reboot,
       append_trace
         [Send setupServer 200 "application/json"
            (apikey_body (drawn_key W st));
          Delay 2000; EspRestart]
         (provisioned W (fst (config_fields req)) (snd (config_fields req)) st)).
Proof.
  unfold handleConfigPost, getString. rewrite bind_gets.
  destruct (negb _); [reflexivity |].
  destruct (config_fields req) as [newSSID newPassword]. cbn [fst snd].
  destruct (_ || _); [reflexivity |].
  rewrite (bind_run _ _ _ _ _ (generateAPIKey_runs W st)).
  unfold provisioned, put_credentials. same_run.
Qed.

Lemma provisioned_prefs (W : world) (ssid pass : string) (st : state)
    (evs : list event) :
  prefs (append_trace evs (provisioned W ssid pass st))
  = put_credentials ssid pass (drawn_key W st) (prefs st).
Proof. reflexivity. Qed.

Lemma stored_put_credentials (ssid pass key : string)
    (flash : gmap string string) :
  stored (put_credentials ssid pass key flash) "ssid" EmptyString = ssid
  /\ stored (put_credentials ssid pass key flash) "password" EmptyString = pass
  /\ stored (put_credentials ssid pass key flash) "apikey" EmptyString = key.
Proof.
  unfold stored, put_credentials. repeat split.
  - rewrite lookup_insert_ne, lookup_insert_ne, lookup_insert_eq by discriminate.
    reflexivity.
  - rewrite lookup_insert_ne, lookup_insert_eq by discriminate. reflexivity.
  - rewrite lookup_insert_eq. reflexivity.
Qed.

(** What the scan gives when one of the two key literals is absent. *)
Lemma scan_json_missing_key (body : string) :
  WString.indexOf body (quoted "ssid") 0 = (-1)%Z
  \/ WString.indexOf body (quoted "password") 0 = (-1)%Z ->
  scan_json body = (EmptyString, EmptyString).
Proof.
  intros H. unfold scan_json.
  destruct H as [-> | ->]; cbn [Z.eqb negb andb]; [reflexivity |].
  now rewrite andb_false_r.
Qed.

Lemma dispatch_config (W : world) (st : state) (req : request) :
  Provisioning st -> method req = HTTP_POST -> uri req = "/config" ->
  dispatch W setupServer req st = handleConfigPost W req st.
Proof.
  intros Hp Hm Hu. rewrite (dispatch_portal_route W st req Hp Hm), Hu.
  reflexivity.
Qed.

Lemma dispatch_save (W : world) (st : state) (req : request) :
  Provisioning st -> method req = HTTP_POST -> uri req = "/save" ->
  dispatch W setupServer req st = handleSetupSave W req st.
Proof.
  intros Hp Hm Hu. rewrite (dispatch_portal_route W st req Hp Hm), Hu.
  reflexivity.
Qed.

Lemma handleConfigPost_conflict (W : world) (req : request) (st : state) :
  stored (prefs st) "ssid" EmptyString <> EmptyString ->
  handleConfigPost W req st = (Ret tt, append_trace [conflict_reply] st).
Proof.
  intros Hs. rewrite handleConfigPost_run.
  apply String.eqb_neq in Hs. now rewrite Hs.
Qed.

(** C3.  On the setup portal of a device that already holds credentials
    (network name and key both stored), every POST to /config is answered
    with 403 and nothing but that reply changes: the three stored values
    stay as they were. *)
Theorem config_post_conflict (W : world) (st : state) (req : request) :
  Provisioning st ->
  method req = HTTP_POST ->
  uri req = "/config" ->
  stored (prefs st) "ssid" EmptyString <> EmptyString ->
  stored (prefs st) "apikey" EmptyString <> EmptyString ->
  dispatch W setupServer req st
  = (Ret tt,
     append_trace
       [Send setupServer 403 "application/json" already_set_body] st)
  /\ prefs (snd (dispatch W setupServer req st)) = prefs st.
Proof.
  intros Hp Hm Hu Hs _.
  rewrite (dispatch_config W st req Hp Hm Hu).
  rewrite (handleConfigPost_conflict W req st Hs). split; reflexivity.
Qed.

Lemma config_post_conflict_witness :
  Provisioning portal_state_set
  /\ stored (prefs portal_state_set) "ssid" EmptyString <> EmptyString
  /\ stored (prefs portal_state_set) "apikey" EmptyString <> EmptyString
  /\ dispatch quiet_world setupServer (post_json "/config" body_net_pw)
       portal_state_set
     = (Ret tt,
        append_trace
          [Send setupServer 403 "application/json" already_set_body]
          portal_state_set).
Proof.
  assert (Hp : Provisioning portal_state_set)
    by (split; vm_compute; reflexivity).
  assert (Hs : stored (prefs portal_state_set) "ssid" EmptyString
               <> EmptyString) by (vm_compute; discriminate).
  assert (Hk : stored (prefs portal_state_set) "apikey" EmptyString
               <> EmptyString) by (vm_compute; discriminate).
  split; [exact Hp |]. split; [exact Hs |]. split; [exact Hk |].
  apply (config_post_conflict quiet_world portal_state_set
           (post_json "/config" body_net_pw) Hp eq_refl eq_refl Hs Hk).
Defined.

(** C4, as amended.  On the setup portal of a device with no stored network
    name, a POST to /config whose extracted network name or password is
    empty is answered with 400 and writes nothing; this is the case in
    particular when the request does not carry both form fields and its
    body lacks the quoted key ssid or the quoted key password.  Every such
    POST leaves the store as it was or writes the complete triple, with a
    non-empty name, a non-empty secret and the fresh key. *)
Theorem config_post_validation (W : world) (st : state) (req : request) :
  Provisioning st ->
  method req = HTTP_POST ->
  uri req = "/config" ->
  stored (prefs st) "ssid" EmptyString = EmptyString ->
  (fst (config_fields req) = EmptyString
   \/ snd (config_fields req) = EmptyString ->
   dispatch W setupServer req st
   = (Ret tt,
      append_trace [Send setupServer 400 "application/json" missing_body] st))
  /\ (WebServer.hasArg req "ssid" && WebServer.hasArg req "password" = false ->
      WString.indexOf (WebServer.arg req "plain") (quoted "ssid") 0 = (-1)%Z
      \/ WString.indexOf (WebServer.arg req "plain") (quoted "password") 0
         = (-1)%Z ->
      dispatch W setupServer req st
      = (Ret tt,
         append_trace [Send setupServer 400 "application/json" missing_body]
           st))
  /\ (prefs (snd (dispatch W setupServer req st)) = prefs st
      \/ exists ssid pass,
           ssid <> EmptyString /\ pass <> EmptyString
           /\ prefs (snd (dispatch W setupServer req st))
              = put_credentials ssid pass (drawn_key W st) (prefs st)).
Proof.
  intros Hp Hm Hu Hs.
  rewrite (dispatch_config W st req Hp Hm Hu), handleConfigPost_run, Hs.
  cbn [String.eqb negb].
  assert (Hempty : fst (config_fields req) = EmptyString
                   \/ snd (config_fields req) = EmptyString ->
                   String.eqb (fst (config_fields req)) EmptyString
                   || String.eqb (snd (config_fields req)) EmptyString = true).
  { intros [-> | ->]; [reflexivity | apply orb_true_r]. }
  split; [| split].
  - intros H. now rewrite (Hempty H).
  - intros Hform Hkey. rewrite Hempty; [reflexivity |].
    unfold config_fields. rewrite Hform.
    rewrite (scan_json_missing_key _ Hkey). now left.
  - destruct (String.eqb_spec (fst (config_fields req)) EmptyString) as [E1 | N1];
      [now left |].
    destruct (String.eqb_spec (snd (config_fields req)) EmptyString) as [E2 | N2];
      [now left |].
    right. exists (fst (config_fields req)), (snd (config_fields req)).
    repeat split; assumption.
Qed.

Lemma config_post_validation_witness :
  Provisioning portal_state
  /\ stored (prefs portal_state) "ssid" EmptyString = EmptyString
  /\ dispatch quiet_world setupServer
       (post_json "/config" ("{" +:+ quoted "ssid" +:+ ": " +:+ quoted "net" +:+ "}"))
       portal_state
     = (Ret tt,
        append_trace [Send setupServer 400 "application/json" missing_body]
          portal_state).
Proof.
  assert (Hp : Provisioning portal_state) by (split; vm_compute; reflexivity).
  assert (Hs : stored (prefs portal_state) "ssid" EmptyString = EmptyString)
    by (vm_compute; reflexivity).
  split; [exact Hp |]. split; [exact Hs |].
  destruct (config_post_validation quiet_world portal_state
              (post_json "/config"
                 ("{" +:+ quoted "ssid" +:+ ": " +:+ quoted "net" +:+ "}"))
              Hp eq_refl eq_refl Hs) as (_ & Hmissing & _).
  apply Hmissing; [reflexivity | right; vm_compute; reflexivity].
Defined.

(** C4, counterexample.  Neither the body with the two keys in the other
    order nor the body with a nested object as ssid value is an instance of
    the two-key schema, yet each POST is answered with 200 and what the
    scan extracted is written to the store. *)
Lemma config_post_malformed_accepted :
  (is_two_key_schema body_swapped = false
   /\ is_two_key_schema body_nested = false
   /\ stored (prefs portal_state) "ssid" EmptyString = EmptyString)
  /\ (fst (dispatch quiet_world setupServer (post_json "/config" body_swapped)
             portal_state) = Reboot
      /\ events_since portal_state
           (snd (dispatch quiet_world setupServer
                   (post_json "/config" body_swapped) portal_state))
         = [Send setupServer 200 "application/json"
              (apikey_body "907E5C3A18F6D4B2");
            Delay 2000; EspRestart]
      /\ prefs (snd (dispatch quiet_world setupServer
                       (post_json "/config" body_swapped) portal_state))
         = put_credentials "net}" "pw, ssid: net" "907E5C3A18F6D4B2" ∅)
  /\ (fst (dispatch quiet_world setupServer (post_json "/config" body_nested)
             portal_state) = Reboot
      /\ events_since portal_state
           (snd (dispatch quiet_world setupServer
                   (post_json "/config" body_nested) portal_state))
         = [Send setupServer 200 "application/json"
              (apikey_body "907E5C3A18F6D4B2");
            Delay 2000; EspRestart]
      /\ prefs (snd (dispatch quiet_world setupServer
                       (post_json "/config" body_nested) portal_state))
         = put_credentials "{a: net}" "pw" "907E5C3A18F6D4B2" ∅).
Proof.
  assert (Hp : Provisioning portal_state) by (split; vm_compute; reflexivity).
  assert (Hk : drawn_key quiet_world portal_state = "907E5C3A18F6D4B2")
    by (vm_compute; reflexivity).
  split; [repeat split; vm_compute; reflexivity |].
  rewrite (dispatch_config quiet_world portal_state
             (post_json "/config" body_swapped) Hp eq_refl eq_refl),
    (dispatch_config quiet_world portal_state
       (post_json "/config" body_nested) Hp eq_refl eq_refl).
  rewrite !handleConfigPost_run.
  replace (stored (prefs portal_state) "ssid" EmptyString) with EmptyString
    by (vm_compute; reflexivity).
  replace (config_fields (post_json "/config" body_swapped))
    with ("net}", "pw, ssid: net") by (vm_compute; reflexivity).
  replace (config_fields (post_json "/config" body_nested))
    with ("{a: net}", "pw") by (vm_compute; reflexivity).
  cbn [String.eqb Ascii.eqb Bool.eqb negb orb fst snd].
  rewrite !events_since_append_after, !provisioned_prefs, Hk.
  repeat split.
Qed.

Lemma append_trace_nil (st : state) : append_trace [] st = st.
Proof. destruct st. simpl_state. now rewrite app_nil_r. Qed.

Lemma serve_config_conflicts (W : world) (reqs : list request) :
  forall st,
    Provisioning st ->
    stored (prefs st) "ssid" EmptyString <> EmptyString ->
    Forall is_config_post reqs ->
    serve_all W setupServer reqs st
    = (Ret tt, append_trace (map (fun _ => conflict_reply) reqs) st).
Proof.
  induction reqs as [|req reqs IH]; intros st Hp Hs Hall; cbn [serve_all map].
  - now rewrite append_trace_nil.
  - inversion Hall as [|? ? [Hm Hu] Hrest]; subst.
    unfold bind.
    rewrite (dispatch_config W st req Hp Hm Hu),
      (handleConfigPost_conflict W req st Hs).
    rewrite IH; [| exact Hp | exact Hs | exact Hrest].
    now rewrite append_trace_app.
Qed.

(** C10.  The conflict check of /config looks at the stored network name
    only.  With a name but no key in the store, boot runs the setup portal;
    there every POST to /config, however many are made, is answered with
    403 and leaves the store alone, so the device is never provisioned that
    way; a POST to /save with both form fields is not checked against the
    store at all and overwrites the three entries. *)
Theorem config_conflict_by_name_only (W : world) (fuel : nat) (st : state)
    (reqs : list request) (req : request) :
  Provisioning st ->
  stored (prefs st) "ssid" EmptyString <> EmptyString ->
  stored (prefs st) "apikey" EmptyString = EmptyString ->
  (fst (boot W fuel (prefs st)) <> Ret tt
   /\ In (ServerBegin setupServer) (trace (snd (boot W fuel (prefs st))))
   /\ existsb normal_mode_event (trace (snd (boot W fuel (prefs st)))) = false)
  /\ (Forall is_config_post reqs ->
      serve_all W setupServer reqs st
      = (Ret tt, append_trace (map (fun _ => conflict_reply) reqs) st)
      /\ prefs (snd (serve_all W setupServer reqs st)) = prefs st)
  /\ (method req = HTTP_POST -> uri req = "/save" ->
      WebServer.hasArg req "ssid" && WebServer.hasArg req "password" = true ->
      dispatch W setupServer req st
      = (Reboot,
         append_trace
           [Send setupServer 200 "text/html" (saved_page (drawn_key W st));
            Delay 2000; EspRestart]
           (provisioned W (WebServer.arg req "ssid")
              (WebServer.arg req "password") st))
      /\ prefs (snd (dispatch W setupServer req st))
         = put_credentials (WebServer.arg req "ssid")
             (WebServer.arg req "password") (drawn_key W st) (prefs st)).
Proof.
  intros Hp Hs Hk. split; [| split].
  - destruct (boot_unprovisioned W fuel (prefs st)) as (H1 & _ & _ & H4 & H5);
      [now right |].
    repeat split; assumption.
  - intros Hall. rewrite (serve_config_conflicts W reqs st Hp Hs Hall).
    split; reflexivity.
  - intros Hm Hu Hargs.
    rewrite (dispatch_save W st req Hp Hm Hu), handleSetupSave_run, Hargs.
    split; reflexivity.
Qed.

Lemma config_conflict_by_name_only_witness :
  Provisioning portal_state_name_only
  /\ stored (prefs portal_state_name_only) "ssid" EmptyString <> EmptyString
  /\ stored (prefs portal_state_name_only) "apikey" EmptyString = EmptyString
  /\ fst (boot quiet_world 2 (prefs portal_state_name_only)) <> Ret tt
  /\ prefs (snd (serve_all quiet_world setupServer
                   [post_json "/config" body_net_pw;
                    post_form "/config" [("ssid", "a"); ("password", "b")]]
                   portal_state_name_only))
     = prefs portal_state_name_only
  /\ prefs (snd (dispatch quiet_world setupServer
                   (post_form "/save" [("ssid", "a"); ("password", "b")])
                   portal_state_name_only))
     = put_credentials "a" "b"
         (drawn_key quiet_world portal_state_name_only)
         (prefs portal_state_name_only).
Proof.
  assert (Hp : Provisioning portal_state_name_only)
    by (split; vm_compute; reflexivity).
  assert (Hs : stored (prefs portal_state_name_only) "ssid" EmptyString
               <> EmptyString) by (vm_compute; discriminate).
  assert (Hk : stored (prefs portal_state_name_only) "apikey" EmptyString
               = EmptyString) by (vm_compute; reflexivity).
  destruct (config_conflict_by_name_only quiet_world 2 portal_state_name_only
              [post_json "/config" body_net_pw;
               post_form "/config" [("ssid", "a"); ("password", "b")]]
              (post_form "/save" [("ssid", "a"); ("password", "b")])
              Hp Hs Hk) as ((Hboot & _) & Hconfig & Hsave).
  split; [exact Hp |]. split; [exact Hs |]. split; [exact Hk |].
  split; [exact Hboot |]. split.
  - apply Hconfig. repeat constructor.
  - apply Hsave; reflexivity.
Defined.

(** *** What a boot reads *)

Lemma keeps_eq {A B} (f : state -> B) (m : M A) (st : state) :
  stable (keeps f) m -> f (snd (m st)) = f st.
Proof. intros H. apply H. Qed.

Lemma setup_loads (W : world) (fuel : nat) (flash : gmap string string) :
  savedSSID (snd (setup W fuel (boot_state flash)))
  = stored flash "ssid" EmptyString
  /\ savedPassword (snd (setup W fuel (boot_state flash)))
     = stored flash "password" EmptyString
  /\ savedAPIKey (snd (setup W fuel (boot_state flash)))
     = stored flash "apikey" EmptyString.
Proof.
  unfold setup, delay, getString.
  rewrite !bind_emit, !bind_gets, bind_modify.
  repeat split;
    lazymatch goal with
    | |- ?f (snd (?m ?s)) = _ =>
        transitivity (f s); [apply (keeps_eq f m s); stable_tac | reflexivity]
    end.
Qed.

(** C9.  When a POST to /save or /config on the setup portal succeeds (the
    handler stores credentials and restarts the chip), the store holds the
    submitted network name and secret and the key that was generated and
    shown in the 200 reply, a key of 16 hexadecimal characters; and the
    next boot, in any environment and however long it runs, reads exactly
    these three values into its globals. *)
Theorem credentials_round_trip (W W' : world) (fuel : nat) (st st' : state)
    (req : request) :
  Provisioning st ->
  method req = HTTP_POST ->
  uri req = "/save" \/ uri req = "/config" ->
  dispatch W setupServer req st = (Reboot, st') ->
  let ssid := if String.eqb (uri req) "/save" then WebServer.arg req "ssid"
              else fst (config_fields req) in
  let pass := if String.eqb (uri req) "/save" then WebServer.arg req "password"
              else snd (config_fields req) in
  let key := drawn_key W st in
  prefs st' = put_credentials ssid pass key (prefs st)
  /\ events_since st st'
     = [Send setupServer 200
          (if String.eqb (uri req) "/save" then "text/html"
           else "application/json")
          (if String.eqb (uri req) "/save" then saved_page key
           else apikey_body key);
        Delay 2000; EspRestart]
  /\ String.length key = 16%nat
  /\ forallb is_hex_char (list_ascii_of_string key) = true
  /\ savedSSID (snd (boot W' fuel (prefs st'))) = ssid
  /\ savedPassword (snd (boot W' fuel (prefs st'))) = pass
  /\ savedAPIKey (snd (boot W' fuel (prefs st'))) = key.
Proof.
  intros Hp Hm Hu Hrun ssid pass key. subst key.
  set (key := drawn_key W st) in *.
  assert (Hst' : exists evs,
             st' = append_trace
                     (Send setupServer 200
                        (if String.eqb (uri req) "/save" then "text/html"
                         else "application/json")
                        (if String.eqb (uri req) "/save" then saved_page key
                         else apikey_body key) :: evs)
                     (provisioned W ssid pass st)
             /\ evs = [Delay 2000; EspRestart]).
  { subst ssid pass key. destruct Hu as [Hu | Hu].
    - rewrite (dispatch_save W st req Hp Hm Hu), handleSetupSave_run in Hrun.
      rewrite Hu. cbn [String.eqb Ascii.eqb Bool.eqb].
      destruct (_ && _); [| discriminate].
      injection Hrun as <-. eexists; split; reflexivity.
    - rewrite (dispatch_config W st req Hp Hm Hu), handleConfigPost_run in Hrun.
      rewrite Hu. cbn [String.eqb Ascii.eqb Bool.eqb].
      destruct (negb _); [discriminate |].
      destruct (_ || _); [discriminate |].
      injection Hrun as <-. eexists; split; reflexivity. }
  destruct Hst' as (evs & -> & ->).
  rewrite events_since_append_after, provisioned_prefs. fold key.
  destruct (drawn_key_hex16 W st) as [Hlen Hhex]. fold key in Hlen, Hhex.
  destruct (setup_loads W' fuel (put_credentials ssid pass key (prefs st)))
    as (H1 & H2 & H3).
  destruct (stored_put_credentials ssid pass key (prefs st)) as (E1 & E2 & E3).
  unfold boot. rewrite H1, H2, H3, E1, E2, E3.
  repeat split; assumption.
Qed.

Lemma credentials_round_trip_witness :
  Provisioning portal_state
  /\ dispatch quiet_world setupServer (post_json "/config" body_net_pw)
       portal_state = (Reboot, provisioned_net_pw)
  /\ prefs provisioned_net_pw
     = put_credentials "net" "pw" (drawn_key quiet_world portal_state) ∅
  /\ savedSSID (snd (boot quiet_world 5 (prefs provisioned_net_pw))) = "net"
  /\ savedPassword (snd (boot quiet_world 5 (prefs provisioned_net_pw))) = "pw"
  /\ savedAPIKey (snd (boot quiet_world 5 (prefs provisioned_net_pw)))
     = drawn_key quiet_world portal_state.
Proof.
  assert (Hp : Provisioning portal_state) by (split; vm_compute; reflexivity).
  assert (Hrun : dispatch quiet_world setupServer
                   (post_json "/config" body_net_pw) portal_state
                 = (Reboot, provisioned_net_pw)) by (vm_compute; reflexivity).
  destruct (credentials_round_trip quiet_world quiet_world 5 portal_state
              provisioned_net_pw (post_json "/config" body_net_pw)
              Hp eq_refl (or_intror eq_refl) Hrun)
    as (Hprefs & _ & _ & _ & H1 & H2 & H3).
  split; [exact Hp |]. split; [exact Hrun |]. split; [exact Hprefs |].
  split; [exact H1 |]. split; [exact H2 | exact H3].
Defined.

(** *** The store invariant *)

Lemma store_consistent_put (ssid pass key : string)
    (flash : gmap string string) :
  ssid <> EmptyString -> key <> EmptyString ->
  store_consistent (put_credentials ssid pass key flash).
Proof.
  intros Hs Hk. unfold store_consistent.
  destruct (stored_put_credentials ssid pass key flash) as (-> & _ & ->).
  tauto.
Qed.

(** The check of /config for empty values keeps the invariant. *)
Lemma handleConfigPost_keeps_consistent (W : world) (req : request)
    (st : state) :
  store_consistent (prefs st) ->
  store_consistent (prefs (snd (handleConfigPost W req st))).
Proof.
  intros Hc. rewrite handleConfigPost_run.
  destruct (negb _); [exact Hc |].
  destruct (String.eqb_spec (fst (config_fields req)) EmptyString);
    [exact Hc |].
  destruct (String.eqb_spec (snd (config_fields req)) EmptyString);
    [exact Hc |].
  cbn [orb snd]. rewrite provisioned_prefs.
  apply store_consistent_put; [assumption | apply drawn_key_nonempty].
Qed.

(** C5.  The store invariant (a key is stored exactly when a network name
    is) does not survive the form of the setup page submitted with the
    name field empty: starting from the empty store, the device boots into
    the portal, [handleSetupSave] stores an empty name together with a
    fresh 16-character key, and restarts. *)
Theorem save_with_empty_name_breaks_invariant :
  store_consistent ∅
  /\ WebServer.hasArg empty_name_save "ssid" = true
  /\ WebServer.arg empty_name_save "ssid" = EmptyString
  /\ fst (boot (world_with_client empty_name_save) 1 ∅) = Reboot
  /\ stored (prefs (snd (boot (world_with_client empty_name_save) 1 ∅)))
       "ssid" EmptyString = EmptyString
  /\ String.length
       (stored (prefs (snd (boot (world_with_client empty_name_save) 1 ∅)))
          "apikey" EmptyString) = 16%nat
  /\ ~ store_consistent
         (prefs (snd (boot (world_with_client empty_name_save) 1 ∅))).
Proof.
  split; [| split; [| split; [| split; [| split; [| split]]]]];
    try (vm_compute; reflexivity).
  - unfold store_consistent. vm_compute. tauto.
  - unfold store_consistent. intros [H _].
    apply H; [| vm_compute; reflexivity].
    vm_compute. discriminate.
Qed.

(** *** The normal mode is entered and kept *)

Lemma Operational_same (st st' : state) :
  routes st' = routes st -> notFound st' = notFound st ->
  savedAPIKey st' = savedAPIKey st -> prefs st' = prefs st ->
  Operational st -> Operational st'.
Proof.
  intros Hr Hn Hk Hp (H1 & H2 & H3). unfold Operational.
  rewrite Hr, Hn, Hk, Hp. auto.
Qed.

Lemma handleNotFound_run (W : world) (req : request) (st : state) :
  handleNotFound req st
  = (Ret tt,
     append_trace
       (if authorized st req
        then [Send server 404 "application/json" not_found_body]
        else challenge) st).
Proof.
  unfold handleNotFound, bind at 1. rewrite (checkAuth_eq W).
  destruct (authorized st req); cbn [negb];
    [reflexivity | apply handleUnauthorized_run].
Qed.

(** On the normal surface every request is answered and only the trace
    changes. *)
Lemma dispatch_normal_run (W : world) (st : state) (req : request) :
  Operational st ->
  exists evs, dispatch W server req st = (Ret tt, append_trace evs st).
Proof.
  intros Hop. rewrite (dispatch_normal W st req Hop).
  destruct (http_method_eqb _ _);
    repeat (destruct (String.eqb (uri req) _));
    first [ rewrite (handleOpen_run W) | rewrite (handleClose_run W)
          | rewrite (handleNotFound_run W) | idtac ];
    eexists; reflexivity.
Qed.

Lemma handleClient_normal_run (W : world) (st : state) :
  Operational st ->
  exists evs st1,
    handleClient W server st = (Ret tt, append_trace evs st1)
    /\ Operational st1 /\ prefs st1 = prefs st.
Proof.
  intros Hop. unfold handleClient. rewrite bind_gets, bind_modify.
  set (st1 := set_pos _ _ _ _ st).
  assert (Hop1 : Operational st1)
    by (apply (Operational_same st); [reflexivity .. | exact Hop]).
  destruct (clients W (client_pos st)) as [req |].
  - destruct (dispatch_normal_run W st1 req Hop1) as (evs & Hrun).
    exists evs, st1. auto.
  - exists [], st1. rewrite append_trace_nil. auto.
Qed.

Lemma loop_keeps_Operational (W : world) (st : state) :
  Operational st ->
  exists st',
    loop W st = (Ret tt, st') /\ Operational st' /\ prefs st' = prefs st.
Proof.
  intros Hop. unfold loop.
  destruct (handleClient_normal_run W st Hop) as (evs & st1 & Hrun & Hop1 & Hp).
  rewrite (bind_run _ _ _ _ _ Hrun).
  unfold Serial_println, delay. rewrite !bind_emit, sendPostMessage_run.
  eexists. split; [reflexivity |]. split; [| rewrite <- Hp; reflexivity].
  apply (Operational_same st1); [reflexivity .. | exact Hop1].
Qed.

Lemma wifi_wait_returns (W : world) (n : nat) :
  forall fuel st,
    wifi_connected W (wifi_pos st + n) = true ->
    n < fuel ->
    exists st', wifi_wait W fuel st = (Ret tt, st').
Proof.
  induction n as [|n IH]; intros fuel st Hc Hf;
    (destruct fuel as [|fuel]; [lia |]);
    unfold wifi_wait; cbn [while];
    unfold WiFi_connected at 1; unfold bind at 1 2; unfold ret at 1.
  - rewrite Nat.add_0_r in Hc. rewrite Hc. cbn [negb]. eexists; reflexivity.
  - destruct (wifi_connected W (wifi_pos st)); cbn [negb];
      [eexists; reflexivity |].
    unfold delay, Serial_print. rewrite bind_assoc, !bind_emit.
    apply IH; [| lia].
    simpl_state. rewrite <- Hc. f_equal. destruct st. simpl_state. lia.
Qed.

Lemma setup_provisioned (W : world) (fuel : nat) (flash : gmap string string) :
  stored flash "ssid" EmptyString <> EmptyString ->
  stored flash "apikey" EmptyString <> EmptyString ->
  forall st,
    setup W fuel (boot_state flash) = (Ret tt, st) ->
    Operational st /\ prefs st = flash
    /\ In (ServerBegin server) (trace st).
Proof.
  intros Hs Hk st.
  apply String.eqb_neq in Hs, Hk.
  unfold setup, delay, getString, Serial_print.
  rewrite !bind_emit, !bind_gets, bind_modify, !bind_gets.
  simpl_state. rewrite Hs, Hk. cbn [orb].
  rewrite bind_emit, bind_gets, !bind_emit.
  set (cond := (c <- WiFi_connected W ;; ret (negb c))).
  set (body := (emit (Delay 500) ;; emit (SerialPrint "."))).
  set (st3 := append_trace _ _).
  assert (Hr : routes (snd (while fuel cond body st3)) = routes st3)
    by (apply (keeps_eq routes); subst cond body; stable_tac).
  assert (Hn : notFound (snd (while fuel cond body st3)) = notFound st3)
    by (apply (keeps_eq notFound); subst cond body; stable_tac).
  assert (Ha : savedAPIKey (snd (while fuel cond body st3)) = savedAPIKey st3)
    by (apply (keeps_eq savedAPIKey); subst cond body; stable_tac).
  assert (Hp : prefs (snd (while fuel cond body st3)) = prefs st3)
    by (apply (keeps_eq prefs); subst cond body; stable_tac).
  unfold bind at 1.
  destruct (while fuel cond body st3) as [[[] | |] stw];
    [| discriminate | discriminate].
  cbn [snd] in Hr, Hn, Ha, Hp. subst st3. destruct stw.
  simpl_state_in Hr. simpl_state_in Hn. simpl_state_in Ha. simpl_state_in Hp.
  subst.
  unfold Serial_println, Serial_print, pinMode, digitalWrite.
  run. intros E. injection E as <-.
  unfold Operational. simpl_state. repeat split.
  rewrite !in_app_iff. left. right. now left.
Qed.

(** With credentials stored, boot returns as soon as the network is joined,
    and the device is then in normal mode. *)
Lemma boot_returns (W : world) (fuel n : nat) (flash : gmap string string) :
  stored flash "ssid" EmptyString <> EmptyString ->
  stored flash "apikey" EmptyString <> EmptyString ->
  wifi_connected W n = true ->
  n < fuel ->
  exists st, boot W fuel flash = (Ret tt, st) /\ Operational st.
Proof.
  intros Hs Hk Hc Hf.
  assert (Hret : exists st, boot W fuel flash = (Ret tt, st)).
  { apply String.eqb_neq in Hs, Hk.
    unfold boot, setup, delay, getString, Serial_print.
    rewrite !bind_emit, !bind_gets, bind_modify, !bind_gets.
    simpl_state. rewrite Hs, Hk. cbn [orb].
    rewrite bind_emit, bind_gets, !bind_emit.
    change (while fuel (c <- WiFi_connected W ;; ret (negb c))
              (emit (Delay 500) ;; emit (SerialPrint ".")))
      with (wifi_wait W fuel).
    set (st3 := append_trace _ _).
    destruct (wifi_wait_returns W n fuel st3 Hc Hf) as (stw & Hw).
    rewrite (bind_run _ _ _ _ _ Hw).
    eexists. reflexivity. }
  destruct Hret as (st & Hrun). exists st. split; [exact Hrun |].
  now apply (setup_provisioned W fuel flash Hs Hk st).
Qed.

(** The portal comes up with its three routes, and serving requests never
    changes the route table. *)
Lemma portal_entry_Provisioning (W : world) (flash : gmap string string)
    (evs : list event) :
  Provisioning (portal_entry W (append_trace evs (loaded_state flash))).
Proof.
  destruct (portal_entry_routes W (append_trace evs (loaded_state flash)))
    as (Hr & Hn & _).
  split; [rewrite Hr | rewrite Hn]; reflexivity.
Qed.

Lemma portal_loop_keeps_routes (W : world) (fuel : nat) (st : state) :
  Provisioning st -> Provisioning (snd (portal_loop W fuel st)).
Proof.
  intros [Hr Hn]. unfold Provisioning.
  rewrite (keeps_eq routes (portal_loop W fuel) st),
    (keeps_eq notFound (portal_loop W fuel) st); auto;
    unfold portal_loop; stable_tac.
Qed.

(** In normal mode the main loop runs for ever, and the device stays in
    normal mode with its store untouched. *)
Lemma sketch_loop_keeps_Operational (W : world) (fuel : nat) :
  forall st,
    Operational st ->
    fst (while fuel (ret true) (loop W) st) = Spin
    /\ Operational (snd (while fuel (ret true) (loop W) st))
    /\ prefs (snd (while fuel (ret true) (loop W) st)) = prefs st.
Proof.
  induction fuel as [|fuel IH]; intros st Hop; cbn [while].
  - split; [reflexivity | split; [exact Hop | reflexivity]].
  - rewrite bind_ret.
    destruct (loop_keeps_Operational W st Hop) as (st' & Hrun & Hop' & Hp).
    rewrite (bind_run _ _ _ _ _ Hrun).
    destruct (IH st' Hop') as (H1 & H2 & H3).
    rewrite H1, H3, Hp. auto.
Qed.

(** X12.  The whole sketch on a device with stored credentials: once the
    network is joined it serves and polls for ever (it neither returns nor
    restarts, whatever clients and poll replies arrive) and the store is
    never written. *)
Lemma sketch_normal (W : world) (fuel n : nat) (flash : gmap string string) :
  stored flash "ssid" EmptyString <> EmptyString ->
  stored flash "apikey" EmptyString <> EmptyString ->
  wifi_connected W n = true ->
  n < fuel ->
  fst (sketch W fuel (boot_state flash)) = Spin
  /\ prefs (snd (sketch W fuel (boot_state flash))) = flash.
Proof.
  intros Hs Hk Hc Hf. unfold sketch.
  destruct (boot_returns W fuel n flash Hs Hk Hc Hf) as (st & Hrun & Hop).
  unfold boot in Hrun. rewrite (bind_run _ _ _ _ _ Hrun).
  destruct (setup_provisioned W fuel flash Hs Hk st Hrun) as (_ & Hp & _).
  destruct (sketch_loop_keeps_Operational W fuel st Hop) as (H1 & _ & H3).
  rewrite H1, H3. auto.
Qed.

(** *** The scan of a JSON body, position by position *)

Lemma append_assoc (a b c : string) : (a +:+ b) +:+ c = a +:+ (b +:+ c).
Proof.
  induction a as [|x a IH]; [reflexivity | now rewrite !append_cons, IH].
Qed.

Lemma append_nil_l (a : string) : EmptyString +:+ a = a.
Proof. reflexivity. Qed.

Ltac norm_app :=
  repeat first [rewrite append_assoc | rewrite append_cons | rewrite append_nil_l].

Lemma two_key_body_segments (S P : string) :
  two_key_body S P
  = body_open +:+ (S +:+ (body_middle +:+ (P +:+ body_close))).
Proof.
  unfold two_key_body, body_open, body_middle, body_close, quoted, dq.
  norm_app. reflexivity.
Qed.

Lemma index_succ (n : nat) (p : string) (c : ascii) (s : string) :
  String.index (S n) p (String c s) = option_map S (String.index n p s).
Proof. cbn. destruct (String.index n p s); reflexivity. Qed.

Lemma index_zero_miss (p : string) (c : ascii) (s : string) :
  String.prefix p (String c s) = false ->
  String.index 0 p (String c s) = option_map S (String.index 0 p s).
Proof.
  intros H. cbn [String.index]. rewrite H.
  destruct (String.index 0 p s); reflexivity.
Qed.

Lemma length_append (a b : string) :
  String.length (a +:+ b) = (String.length a + String.length b)%nat.
Proof.
  induction a as [|c a IH]; [reflexivity |].
  rewrite append_cons. cbn [String.length]. now rewrite IH.
Qed.

Lemma length_two_key_body (S P : string) :
  String.length (two_key_body S P)
  = (28 + String.length S + String.length P)%nat.
Proof.
  unfold two_key_body, quoted, dq. rewrite !length_append.
  cbn [String.length]. lia.
Qed.

Lemma prefix_head_ne (c d : ascii) (p s : string) :
  Ascii.eqb c d = false -> String.prefix (String c p) (String d s) = false.
Proof.
  intros H. cbn [String.prefix].
  destruct (ascii_dec c d) as [E | N]; [| reflexivity].
  subst. now rewrite Ascii.eqb_refl in H.
Qed.

(** No occurrence starts inside a string that lacks the first character. *)
Lemma index_skip (c : ascii) (p a b : string) :
  has_char c a = false ->
  String.index 0 (String c p) (a +:+ b)
  = option_map (Nat.add (String.length a)) (String.index 0 (String c p) b).
Proof.
  induction a as [|d a IH]; intros H.
  - rewrite append_nil_l. now destruct (String.index _ _ _).
  - cbn [has_char] in H. apply orb_false_iff in H as [Hd Ha].
    rewrite append_cons, index_zero_miss by (now apply prefix_head_ne).
    rewrite (IH Ha). destruct (String.index _ _ b); reflexivity.
Qed.

Lemma index_after (p a b : string) :
  String.index (String.length a) p (a +:+ b)
  = option_map (Nat.add (String.length a)) (String.index 0 p b).
Proof.
  induction a as [|d a IH].
  - rewrite append_nil_l. now destruct (String.index _ _ _).
  - rewrite append_cons. cbn [String.length]. rewrite index_succ, IH.
    destruct (String.index 0 p b); reflexivity.
Qed.

Lemma index_ssid_key (S P : string) :
  String.index 0 (quoted "ssid") (two_key_body S P) = Some 1%nat.
Proof. reflexivity. Qed.

Lemma index_ssid_colon (S P : string) :
  String.index 1 ":" (two_key_body S P) = Some 7%nat.
Proof. reflexivity. Qed.

Lemma index_ssid_comma (S P : string) :
  has_char "," S = false ->
  String.index 1 "," (two_key_body S P) = Some (11 + String.length S)%nat.
Proof.
  intros H. rewrite two_key_body_segments.
  change body_open with (String "{" (quoted "ssid" +:+ ": " +:+ dq)).
  rewrite append_cons, index_succ.
  rewrite index_skip by reflexivity. rewrite (index_skip _ _ S) by exact H.
  replace (String.index 0 "," (body_middle +:+ P +:+ body_close))
    with (Some 1%nat) by reflexivity.
  cbn [option_map]. apply (f_equal Some).
  change (String.length (quoted "ssid" +:+ ": " +:+ dq)) with 9%nat. lia.
Qed.

(** A value in quotes is mistaken for a key only if it spells the key. *)
Lemma prefix_quoted_value (q : ascii) (p : string) :
  has_char q p = false ->
  forall S R,
    has_char q S = false ->
    String.prefix (p +:+ String q EmptyString) (S +:+ String q R) = true ->
    S = p.
Proof.
  induction p as [|c p IH]; intros Hp S R HS Hpre.
  - destruct S as [|d S]; [reflexivity |].
    cbn [has_char] in HS. apply orb_false_iff in HS as [Hd _].
    rewrite append_nil_l, append_cons in Hpre.
    now rewrite (prefix_head_ne q d) in Hpre.
  - cbn [has_char] in Hp. apply orb_false_iff in Hp as [Hc Hp].
    rewrite append_cons in Hpre. destruct S as [|d S].
    + rewrite append_nil_l in Hpre.
      rewrite prefix_head_ne in Hpre; [discriminate |].
      now rewrite Ascii.eqb_sym.
    + cbn [has_char] in HS. apply orb_false_iff in HS as [Hd HS].
      rewrite append_cons in Hpre. cbn [String.prefix] in Hpre.
      destruct (ascii_dec c d) as [-> | N]; [| discriminate].
      f_equal. apply (IH Hp S R HS Hpre).
Qed.

Lemma index_password_key (S P : string) :
  has_char (ascii_of_nat 34) S = false ->
  S <> "password" ->
  String.index 0 (quoted "password") (two_key_body S P)
  = Some (13 + String.length S)%nat.
Proof.
  intros Hq Hne. rewrite two_key_body_segments.
  unfold body_open, quoted, dq. norm_app.
  do 9 (rewrite index_zero_miss by reflexivity).
  rewrite index_zero_miss.
  - rewrite (index_skip _ _ S) by exact Hq.
    match goal with
    | |- context [String.index 0 ?p (body_middle +:+ ?r)] =>
        replace (String.index 0 p (body_middle +:+ r)) with (Some 3%nat)
          by reflexivity
    end.
    cbn [option_map]. apply (f_equal Some). lia.
  - cbn [String.prefix]. destruct (ascii_dec _ _) as [_ | N]; [| reflexivity].
    destruct (String.prefix _ _) eqn:Hpre; [| reflexivity].
    exfalso. apply Hne.
    unfold body_middle, dq in Hpre. rewrite append_cons in Hpre.
    apply (prefix_quoted_value (ascii_of_nat 34) "password" eq_refl S _ Hq Hpre).
Qed.

Ltac same_string :=
  unfold two_key_body, body_open, body_middle, body_close, quoted, dq;
  norm_app; reflexivity.

Lemma index_at (k : nat) (p a b : string) :
  k = String.length a ->
  String.index k p (a +:+ b)
  = option_map (Nat.add k) (String.index 0 p b).
Proof. intros ->. apply index_after. Qed.

(** The body cut in front of the password key. *)
Lemma two_key_body_at_key (S P : string) :
  two_key_body S P
  = ((body_open +:+ S) +:+ (dq +:+ ", "))
    +:+ ((quoted "password" +:+ ": " +:+ dq) +:+ (P +:+ body_close)).
Proof. same_string. Qed.

Lemma length_before_key (S : string) :
  String.length ((body_open +:+ S) +:+ (dq +:+ ", "))
  = (13 + String.length S)%nat.
Proof.
  rewrite (length_append (body_open +:+ S)), (length_append body_open).
  change (String.length body_open) with 10%nat.
  change (String.length (dq +:+ ", ")) with 3%nat. lia.
Qed.

Lemma index_password_colon (S P : string) :
  String.index (13 + String.length S) ":" (two_key_body S P)
  = Some (23 + String.length S)%nat.
Proof.
  rewrite two_key_body_at_key, index_at by now rewrite length_before_key.
  replace (String.index 0 ":" ((quoted "password" +:+ ": " +:+ dq)
                               +:+ P +:+ body_close))
    with (Some 10%nat) by reflexivity.
  cbn [option_map]. apply (f_equal Some). lia.
Qed.

Lemma index_password_brace (S P : string) :
  has_char "}" P = false ->
  String.index (13 + String.length S) "}" (two_key_body S P)
  = Some (27 + String.length S + String.length P)%nat.
Proof.
  intros H.
  rewrite two_key_body_at_key, index_at by now rewrite length_before_key.
  rewrite index_skip by reflexivity.
  rewrite (index_skip _ _ P) by exact H.
  replace (String.index 0 "}" body_close) with (Some 1%nat) by reflexivity.
  cbn [option_map]. apply (f_equal Some).
  change (String.length (quoted "password" +:+ ": " +:+ dq)) with 13%nat. lia.
Qed.

(** The same positions when the network name spells the key. *)
Lemma index_password_key_clash (P : string) :
  String.index 0 (quoted "password") (two_key_body "password" P) = Some 9%nat
  /\ String.index 9 ":" (two_key_body "password" P) = Some 31%nat.
Proof. split; reflexivity. Qed.

Lemma index_password_brace_clash (P : string) :
  has_char "}" P = false ->
  String.index 9 "}" (two_key_body "password" P)
  = Some (35 + String.length P)%nat.
Proof.
  intros H.
  replace (two_key_body "password" P)
    with (("{" +:+ quoted "ssid" +:+ ": ")
          +:+ ((dq +:+ "password" +:+ body_middle)
               +:+ (P +:+ body_close))) by same_string.
  rewrite index_at by reflexivity.
  rewrite index_skip by reflexivity.
  rewrite (index_skip _ _ P) by exact H.
  replace (String.index 0 "}" body_close) with (Some 1%nat) by reflexivity.
  cbn [option_map]. apply (f_equal Some).
  change (String.length (dq +:+ "password" +:+ body_middle)) with 25%nat.
  lia.
Qed.

Lemma indexOf_found (s pat : string) (from : Z) (k : nat) :
  (0 <= from < WString.len s)%Z ->
  (WString.len s < 2 ^ 32)%Z ->
  String.index (Z.to_nat from) pat s = Some k ->
  WString.indexOf s pat from = Z.of_nat k.
Proof.
  intros Hf Hl Hi. unfold WString.indexOf, WString.to_unsigned.
  rewrite Z.mod_small by lia.
  destruct (Z.leb_spec (WString.len s) from); [lia |]. now rewrite Hi.
Qed.

Lemma substring_range (s : string) (from to : Z) :
  (0 <= from <= to)%Z -> (to <= WString.len s)%Z ->
  (from < WString.len s)%Z -> (WString.len s < 2 ^ 32)%Z ->
  WString.substring s from to
  = String.substring (Z.to_nat from) (Z.to_nat (to - from)) s.
Proof.
  intros H1 H2 H3 H4. unfold WString.substring, WString.to_unsigned.
  rewrite !Z.mod_small by lia.
  destruct (Z.ltb_spec to from); [lia |].
  destruct (Z.leb_spec (WString.len s) from); [lia |].
  destruct (Z.ltb_spec (WString.len s) to); [lia |]. reflexivity.
Qed.

Lemma substring_take (a b : string) :
  String.substring 0 (String.length a) (a +:+ b) = a.
Proof.
  induction a as [|c a IH].
  - rewrite append_nil_l. now destruct b.
  - rewrite append_cons. cbn [String.length String.substring]. now rewrite IH.
Qed.

Lemma substring_mid (a x b : string) (k n : nat) :
  k = String.length a -> n = String.length x ->
  String.substring k n (a +:+ (x +:+ b)) = x.
Proof.
  intros -> ->. induction a as [|c a IH].
  - rewrite append_nil_l. apply substring_take.
  - rewrite append_cons. cbn [String.length String.substring]. exact IH.
Qed.

Lemma rtrim_keeps (a : string) (c : ascii) :
  WString.isspace c = false ->
  WString.rtrim (a +:+ String c EmptyString) = a +:+ String c EmptyString.
Proof.
  intros Hc. induction a as [|d a IH].
  - rewrite append_nil_l. cbn [WString.rtrim]. now rewrite Hc.
  - rewrite append_cons. cbn [WString.rtrim]. rewrite IH.
    destruct a; reflexivity.
Qed.

Lemma trim_quoted (s : string) :
  WString.trim (" " +:+ quoted s) = quoted s.
Proof.
  unfold WString.trim, quoted.
  change (WString.ltrim (" " +:+ dq +:+ s +:+ dq)) with (dq +:+ s +:+ dq).
  rewrite <- append_assoc. apply rtrim_keeps. reflexivity.
Qed.

Lemma unquote_app (s r : string) :
  has_char (ascii_of_nat 34) s = false ->
  WString.replace_from dq EmptyString 0 (s +:+ r)
  = s +:+ WString.replace_from dq EmptyString 0 r.
Proof.
  intros H. induction s as [|c s IH]; [reflexivity |].
  cbn [has_char] in H. apply orb_false_iff in H as [Hc Hs].
  rewrite !append_cons. cbn [WString.replace_from].
  unfold dq at 1. rewrite (prefix_head_ne _ c) by exact Hc.
  now rewrite (IH Hs).
Qed.

Lemma unquote_quoted (s : string) :
  has_char (ascii_of_nat 34) s = false ->
  WString.replace dq EmptyString (quoted s) = s.
Proof.
  intros H. unfold WString.replace, quoted.
  change (String.length dq =? 0)%nat with false. cbv iota.
  change (dq +:+ s +:+ dq) with (String (ascii_of_nat 34) (s +:+ dq)).
  cbn [WString.replace_from].
  replace (String.prefix dq (String (ascii_of_nat 34) (s +:+ dq))) with true
    by (destruct (s +:+ dq); reflexivity).
  change (String.length dq - 1)%nat with 0%nat.
  rewrite append_nil_l, (unquote_app s dq H).
  change (WString.replace_from dq EmptyString 0 dq) with EmptyString.
  apply append_empty_r.
Qed.

Lemma len_two_key_body (S P : string) :
  WString.len (two_key_body S P)
  = (28 + WString.len S + WString.len P)%Z.
Proof. unfold WString.len. rewrite length_two_key_body. lia. Qed.

(** Where the scan finds the password key, its colon and the brace. *)
Lemma password_positions (S P : string) :
  has_char (ascii_of_nat 34) S = false ->
  has_char "}" P = false ->
  (WString.len (two_key_body S P) < 2 ^ 32)%Z ->
  exists k,
    WString.indexOf (two_key_body S P) (quoted "password") 0 = k
    /\ k <> (-1)%Z
    /\ WString.indexOf (two_key_body S P) ":" k = (23 + WString.len S)%Z
    /\ WString.indexOf (two_key_body S P) "}" k
       = (27 + WString.len S + WString.len P)%Z.
Proof.
  intros Hq Hb Hl. pose proof (len_two_key_body S P) as HL.
  unfold WString.len in *.
  destruct (String.eqb_spec S "password") as [-> | Hne].
  - destruct (index_password_key_clash P) as [Hk Hc].
    exists 9%Z. cbn [String.length] in HL, Hl |- *.
    split; [| split; [| split]].
    + now rewrite (indexOf_found _ _ 0 9) by (unfold WString.len; (lia || exact Hk)).
    + discriminate.
    + rewrite (indexOf_found _ _ 9 31) by (unfold WString.len; (lia || exact Hc)). lia.
    + rewrite (indexOf_found _ _ 9 (35 + String.length P))
        by (unfold WString.len; first [lia | exact (index_password_brace_clash P Hb)]).
      lia.
  - exists (Z.of_nat (13 + String.length S)).
    split; [| split; [| split]].
    + apply indexOf_found; unfold WString.len; try lia.
      exact (index_password_key S P Hq Hne).
    + lia.
    + rewrite (indexOf_found _ _ _ (23 + String.length S));
        unfold WString.len; try lia.
      rewrite Nat2Z.id. apply index_password_colon.
    + rewrite (indexOf_found _ _ _ (27 + String.length S + String.length P));
        unfold WString.len; try lia.
      rewrite Nat2Z.id. now apply index_password_brace.
Qed.

Lemma two_key_body_ssid_slice (S P : string) :
  two_key_body S P
  = ("{" +:+ quoted "ssid" +:+ ":")
    +:+ ((" " +:+ quoted S)
         +:+ (", " +:+ quoted "password" +:+ ": " +:+ quoted P +:+ "}")).
Proof. same_string. Qed.

Lemma two_key_body_password_slice (S P : string) :
  two_key_body S P
  = ((body_open +:+ S) +:+ (dq +:+ ", " +:+ quoted "password" +:+ ":"))
    +:+ ((" " +:+ quoted P) +:+ "}").
Proof. same_string. Qed.

Lemma scan_json_password (S P : string) :
  has_char (ascii_of_nat 34) S = false ->
  has_char (ascii_of_nat 34) P = false ->
  has_char "}" P = false ->
  (WString.len (two_key_body S P) < 2 ^ 32)%Z ->
  exists ssid, scan_json (two_key_body S P) = (ssid, P)
    /\ ssid = WString.replace dq EmptyString
                (WString.trim
                   (WString.substring (two_key_body S P) 8
                      (if (WString.indexOf (two_key_body S P) "," 1 =? -1)%Z
                       then WString.len (two_key_body S P)
                       else WString.indexOf (two_key_body S P) "," 1))).
Proof.
  intros HqS HqP Hb Hl.
  destruct (password_positions S P HqS Hb Hl) as (k & Hk & Hk1 & Hc & He).
  pose proof (len_two_key_body S P) as HL.
  assert (H1 : WString.indexOf (two_key_body S P) (quoted "ssid") 0 = 1%Z).
  { apply (indexOf_found _ _ 0 1);
      [unfold WString.len in *; lia .. | apply index_ssid_key]. }
  assert (H7 : WString.indexOf (two_key_body S P) ":" 1 = 7%Z).
  { apply (indexOf_found _ _ 1 7);
      [unfold WString.len in *; lia .. | apply index_ssid_colon]. }
  unfold scan_json. rewrite H1, Hk, H7, Hc, He.
  apply Z.eqb_neq in Hk1. rewrite Hk1.
  replace (23 + WString.len S =? -1)%Z with false
    by (symmetry; apply Z.eqb_neq; unfold WString.len; lia).
  replace (27 + WString.len S + WString.len P =? -1)%Z with false
    by (symmetry; apply Z.eqb_neq; unfold WString.len; lia).
  cbn [Z.eqb negb andb]. eexists. split; [| reflexivity].
  f_equal.
  rewrite substring_range by (unfold WString.len in *; lia).
  rewrite (two_key_body_password_slice S P) at 1.
  rewrite (substring_mid _ (" " +:+ quoted P)).
  - rewrite trim_quoted. now apply unquote_quoted.
  - rewrite (length_append (body_open +:+ S)), (length_append body_open).
    change (String.length body_open) with 10%nat.
    change (String.length (dq +:+ ", " +:+ quoted "password" +:+ ":"))
      with 14%nat.
    unfold WString.len. lia.
  - unfold quoted. rewrite !length_append. unfold WString.len.
    change (String.length " ") with 1%nat. change (String.length dq) with 1%nat.
    lia.
Qed.

Lemma scan_json_plain (S P : string) :
  has_char (ascii_of_nat 34) S = false ->
  has_char "," S = false ->
  has_char (ascii_of_nat 34) P = false ->
  has_char "}" P = false ->
  (WString.len (two_key_body S P) < 2 ^ 32)%Z ->
  scan_json (two_key_body S P) = (S, P).
Proof.
  intros HqS Hc HqP Hb Hl.
  destruct (scan_json_password S P HqS HqP Hb Hl) as (ssid & -> & ->).
  f_equal.
  pose proof (len_two_key_body S P) as HL.
  assert (H : WString.indexOf (two_key_body S P) "," 1
              = Z.of_nat (11 + String.length S)).
  { apply indexOf_found; [unfold WString.len in *; lia .. |].
    now apply index_ssid_comma. }
  rewrite H.
  replace (Z.of_nat (11 + String.length S) =? -1)%Z with false
    by (symmetry; apply Z.eqb_neq; lia).
  rewrite substring_range by (unfold WString.len in *; lia).
  rewrite (two_key_body_ssid_slice S P).
  rewrite (substring_mid _ (" " +:+ quoted S)).
  - rewrite trim_quoted. now apply unquote_quoted.
  - reflexivity.
  - unfold quoted. rewrite !length_append.
    change (String.length " ") with 1%nat. change (String.length dq) with 1%nat.
    lia.
Qed.

Lemma has_char_app (c : ascii) (a b : string) :
  has_char c (a +:+ b) = has_char c a || has_char c b.
Proof.
  induction a as [|d a IH]; [reflexivity |].
  rewrite append_cons. cbn [has_char]. now rewrite IH, orb_assoc.
Qed.

Lemma rtrim_cons_nonspace (c : ascii) (s : string) :
  WString.isspace c = false ->
  WString.rtrim (String c s) = String c (WString.rtrim s).
Proof.
  intros H. cbn [WString.rtrim]. rewrite H. now destruct (WString.rtrim s).
Qed.

Lemma has_char_rtrim (c : ascii) (s : string) :
  has_char c s = false -> has_char c (WString.rtrim s) = false.
Proof.
  induction s as [|d s IH]; [reflexivity |].
  cbn [has_char WString.rtrim]. intros H.
  apply orb_false_iff in H as [Hd Hs]. specialize (IH Hs).
  destruct (WString.rtrim s) eqn:E.
  - destruct (WString.isspace d); [reflexivity |].
    cbn [has_char]. now rewrite Hd.
  - cbn [has_char] in *. now rewrite Hd, IH.
Qed.

Lemma index_zero_hit (c : ascii) (s : string) :
  String.index 0 (String c EmptyString) (String c s) = Some 0%nat.
Proof.
  cbn [String.index String.prefix].
  destruct (ascii_dec c c) as [_ | N]; [| contradiction].
  now destruct s.
Qed.

Lemma unquote_open (s : string) :
  has_char (ascii_of_nat 34) s = false ->
  WString.replace dq EmptyString (String (ascii_of_nat 34) s) = s.
Proof.
  intros H. unfold WString.replace.
  change (String.length dq =? 0)%nat with false. cbv iota.
  cbn [WString.replace_from].
  replace (String.prefix dq (String (ascii_of_nat 34) s)) with true
    by (destruct s; reflexivity).
  change (String.length dq - 1)%nat with 0%nat.
  rewrite append_nil_l. rewrite <- (append_empty_r s) at 1.
  rewrite (unquote_app s EmptyString H). apply append_empty_r.
Qed.

Lemma scan_json_comma (S1 S2 P : string) :
  has_char (ascii_of_nat 34) S1 = false ->
  has_char "," S1 = false ->
  has_char (ascii_of_nat 34) S2 = false ->
  has_char (ascii_of_nat 34) P = false ->
  has_char "}" P = false ->
  (WString.len (two_key_body (S1 +:+ "," +:+ S2) P) < 2 ^ 32)%Z ->
  scan_json (two_key_body (S1 +:+ "," +:+ S2) P) = (WString.rtrim S1, P).
Proof.
  intros Hq1 Hc1 Hq2 HqP Hb Hl.
  assert (HqS : has_char (ascii_of_nat 34) (S1 +:+ "," +:+ S2) = false).
  { rewrite !has_char_app, Hq1, Hq2. reflexivity. }
  destruct (scan_json_password _ P HqS HqP Hb Hl) as (ssid & -> & ->).
  f_equal.
  pose proof (len_two_key_body (S1 +:+ "," +:+ S2) P) as HL.
  unfold WString.len in HL, Hl. rewrite !length_append in HL.
  change (String.length ",") with 1%nat in HL.
  assert (H : WString.indexOf (two_key_body (S1 +:+ "," +:+ S2) P) "," 1
              = Z.of_nat (10 + String.length S1)).
  { apply indexOf_found; [unfold WString.len; lia .. |].
    change (Z.to_nat 1) with 1%nat.
    rewrite two_key_body_segments.
    change body_open with (String "{" (quoted "ssid" +:+ ": " +:+ dq)).
    rewrite append_cons, index_succ.
    rewrite index_skip by reflexivity.
    rewrite !append_assoc, (index_skip _ _ S1) by exact Hc1.
    rewrite (append_cons "," EmptyString), index_zero_hit. cbn [option_map].
    apply (f_equal Some).
    change (String.length (quoted "ssid" +:+ ": " +:+ dq)) with 9%nat. lia. }
  rewrite H.
  replace (Z.of_nat (10 + String.length S1) =? -1)%Z with false
    by (symmetry; apply Z.eqb_neq; lia).
  rewrite substring_range by (unfold WString.len; lia).
  replace (two_key_body (S1 +:+ "," +:+ S2) P)
    with (("{" +:+ quoted "ssid" +:+ ":")
          +:+ ((" " +:+ dq +:+ S1)
               +:+ ("," +:+ S2 +:+ body_middle +:+ P +:+ body_close)))
    by same_string.
  rewrite (substring_mid _ (" " +:+ dq +:+ S1)).
  - unfold WString.trim.
    change (WString.ltrim (" " +:+ dq +:+ S1))
      with (String (ascii_of_nat 34) S1).
    rewrite rtrim_cons_nonspace by reflexivity.
    apply unquote_open. now apply has_char_rtrim.
  - reflexivity.
  - rewrite !length_append.
    change (String.length " ") with 1%nat. change (String.length dq) with 1%nat.
    lia.
Qed.

(** ** Properties beyond the claims *)

(** *** The normal surface *)

(** X1.  In normal mode every request that none of the four routes takes,
    an unknown path or any method other than GET (a POST to /open too),
    goes to the not-found handler: without the right bearer header it is
    answered with the 401 challenge, with it with 404; the relay lines are
    not touched and nothing but the trace changes. *)
Theorem unrouted_request_guarded (W : world) (st : state) (req : request) :
  Operational st ->
  has_normal_route req = false ->
  dispatch W server req st
  = (Ret tt,
     append_trace
       (if authorized st req
        then [Send server 404 "application/json" not_found_body]
        else [SendHeader server "WWW-Authenticate" "Bearer";
              Send server 401 "application/json" unauthorized_body]) st)
  /\ hw (events_since st (snd (dispatch W server req st))) = [].
Proof.
  intros Hop Hr. rewrite (dispatch_normal W st req Hop).
  unfold has_normal_route in Hr.
  assert (E : (if http_method_eqb HTTP_GET (method req) then
                 if String.eqb (uri req) "/open" then handleOpen req st
                 else if String.eqb (uri req) "/close" then handleClose req st
                 else if String.eqb (uri req) "/docs" then handleDocs st
                 else if String.eqb (uri req) "/swagger.json"
                      then handleSwaggerJSON st
                 else handleNotFound req st
               else handleNotFound req st) = handleNotFound req st).
  { destruct (http_method_eqb HTTP_GET (method req)); [| reflexivity].
    cbn [andb] in Hr. repeat apply orb_false_iff in Hr as [Hr ?].
    now rewrite Hr, H1, H0, H. }
  rewrite E, (handleNotFound_run W). cbn [snd].
  rewrite events_since_append.
  split; [reflexivity |]. now destruct (authorized st req).
Qed.

Lemma unrouted_request_guarded_witness :
  Operational normal_state
  /\ has_normal_route
       {| method := HTTP_POST; uri := "/open";
          headers := [("Authorization", "Bearer 0123456789ABCDEF")];
          args := [] |} = false
  /\ dispatch quiet_world server
       {| method := HTTP_POST; uri := "/open";
          headers := [("Authorization", "Bearer 0123456789ABCDEF")];
          args := [] |} normal_state
     = (Ret tt,
        append_trace [Send server 404 "application/json" not_found_body]
          normal_state).
Proof.
  assert (Hop : Operational normal_state)
    by (repeat split; vm_compute; reflexivity).
  split; [exact Hop |]. split; [reflexivity |].
  apply (unrouted_request_guarded quiet_world normal_state
           {| method := HTTP_POST; uri := "/open";
              headers := [("Authorization", "Bearer 0123456789ABCDEF")];
              args := [] |} Hop eq_refl).
Defined.

(** X2.  In normal mode a GET of /docs or of /swagger.json is answered with
    200 and the stored document for every request: the handlers make no
    bearer check, so the reply does not depend on the headers. *)
Theorem docs_served_without_check (W : world) (st : state) (req : request) :
  Operational st ->
  method req = HTTP_GET ->
  (uri req = "/docs" ->
   dispatch W server req st
   = (Ret tt, append_trace [SendP server 200 "text/html" swaggerUI] st))
  /\ (uri req = "/swagger.json" ->
      dispatch W server req st
      = (Ret tt,
         append_trace [SendP server 200 "application/json" swaggerJSON] st)).
Proof.
  intros Hop Hm. rewrite (dispatch_normal_route W st req Hop Hm).
  split; intros ->; reflexivity.
Qed.

Lemma docs_served_without_check_witness :
  Operational normal_state
  /\ authorized normal_state
       {| method := HTTP_GET; uri := "/docs"; headers := []; args := [] |}
     = false
  /\ dispatch quiet_world server
       {| method := HTTP_GET; uri := "/docs"; headers := []; args := [] |}
       normal_state
     = (Ret tt,
        append_trace [SendP server 200 "text/html" swaggerUI] normal_state).
Proof.
  assert (Hop : Operational normal_state)
    by (repeat split; vm_compute; reflexivity).
  split; [exact Hop |]. split; [reflexivity |].
  destruct (docs_served_without_check quiet_world normal_state
              {| method := HTTP_GET; uri := "/docs"; headers := [];
                 args := [] |} Hop eq_refl) as [Hdocs _].
  apply Hdocs. reflexivity.
Defined.

(** *** The setup portal *)

Lemma dispatch_portal (W : world) (st : state) (req : request) :
  Provisioning st ->
  dispatch W setupServer req st
  = if http_method_eqb HTTP_GET (method req) && String.eqb (uri req) "/"
    then handleSetupRoot st
    else if http_method_eqb HTTP_POST (method req)
            && String.eqb (uri req) "/save"
    then handleSetupSave W req st
    else if http_method_eqb HTTP_POST (method req)
            && String.eqb (uri req) "/config"
    then handleConfigPost W req st
    else emit (Send setupServer 404 "text/plain" ("Not found: " +:+ uri req))
           st.
Proof.
  intros (Hr & Hnf).
  unfold dispatch. rewrite bind_gets, Hr.
  unfold portal_routes, route_matches.
  cbn [List.find r_server r_method r_uri r_handler server_id_eqb andb].
  rewrite (String.eqb_sym "/"), (String.eqb_sym "/save"),
    (String.eqb_sym "/config").
  destruct (method req); cbn [http_method_eqb andb];
    repeat (destruct (String.eqb (uri req) _); [reflexivity |]);
    rewrite bind_gets, Hnf; reflexivity.
Qed.

Lemma bind_reboot {A B} (m : M A) (k : A -> M B) (st st' : state) :
  m st = (Reboot, st') -> (x <- m ;; k x) st = (Reboot, st').
Proof. intros H. unfold bind. now rewrite H. Qed.

Lemma Provisioning_same (st st' : state) :
  routes st' = routes st -> notFound st' = notFound st ->
  Provisioning st -> Provisioning st'.
Proof. intros Hr Hn [H1 H2]. split; congruence. Qed.

(** A request to the portal either only adds to the trace, or stores a
    complete triple and restarts. *)
Lemma dispatch_portal_outcome (W : world) (st : state) (req : request) :
  Provisioning st ->
  (exists evs, dispatch W setupServer req st = (Ret tt, append_trace evs st))
  \/ (exists ssid pass evs,
        dispatch W setupServer req st
        = (Reboot, append_trace evs (provisioned W ssid pass st))).
Proof.
  intros Hp. rewrite (dispatch_portal W st req Hp).
  destruct (_ && _); [left; eexists; reflexivity |].
  destruct (_ && _).
  { rewrite handleSetupSave_run.
    destruct (_ && _); [right | left]; repeat eexists. }
  destruct (_ && _).
  { rewrite handleConfigPost_run.
    destruct (negb _); [left; eexists; reflexivity |].
    destruct (_ || _); [left | right]; repeat eexists. }
  left. eexists. reflexivity.
Qed.

Lemma handleClient_portal (W : world) (st : state) :
  Provisioning st ->
  (exists st',
     handleClient W setupServer st = (Ret tt, st')
     /\ Provisioning st' /\ prefs st' = prefs st)
  \/ (exists ssid pass key st',
        handleClient W setupServer st = (Reboot, st')
        /\ String.length key = 16%nat
        /\ prefs st' = put_credentials ssid pass key (prefs st)).
Proof.
  intros Hp. unfold handleClient. rewrite bind_gets, bind_modify.
  set (st1 := set_pos _ _ _ _ st).
  assert (Hp1 : Provisioning st1)
    by (apply (Provisioning_same st); [reflexivity .. | exact Hp]).
  destruct (clients W (client_pos st)) as [req |].
  - destruct (dispatch_portal_outcome W st1 req Hp1)
      as [(evs & ->) | (ssid & pass & evs & ->)].
    + left. eexists. split; [reflexivity |]. split; [| reflexivity].
      apply (Provisioning_same st1); [reflexivity .. | exact Hp1].
    + right. exists ssid, pass, (drawn_key W st1). eexists.
      split; [reflexivity |]. split; [apply drawn_key_hex16 | reflexivity].
  - left. exists st1. auto.
Qed.

(** X3.  However long the setup portal serves and whatever it is sent, the
    store is written all or nothing: while the loop runs the store is as it
    was, and the loop ends only in a restart, after the three entries have
    been written together with a key of 16 characters. *)
Theorem portal_store_all_or_nothing (W : world) (fuel : nat) :
  forall st,
    Provisioning st ->
    (fst (portal_loop W fuel st) = Spin
     /\ prefs (snd (portal_loop W fuel st)) = prefs st)
    \/ (fst (portal_loop W fuel st) = Reboot
        /\ exists ssid pass key,
             String.length key = 16%nat
             /\ prefs (snd (portal_loop W fuel st))
                = put_credentials ssid pass key (prefs st)).
Proof.
  unfold portal_loop, delay.
  induction fuel as [|fuel IH]; intros st Hp; cbn [while].
  - left. split; reflexivity.
  - rewrite bind_ret, bind_assoc.
    destruct (handleClient_portal W st Hp)
      as [(st' & Hrun & Hp' & Hprefs)
         | (ssid & pass & key & st' & Hrun & Hlen & Hprefs)].
    + rewrite (bind_run _ _ _ _ _ Hrun), bind_emit.
      assert (Hp2 : Provisioning (append_trace [Delay 1] st'))
        by (apply (Provisioning_same st'); [reflexivity .. | exact Hp']).
      destruct (IH _ Hp2) as [[H1 H2] | (H1 & s & p & k & Hk & H2)].
      * left. split; [exact H1 |]. rewrite H2. exact Hprefs.
      * right. split; [exact H1 |]. exists s, p, k. split; [exact Hk |].
        rewrite H2. cbn [prefs append_trace set_trace]. now rewrite Hprefs.
    + right. rewrite (bind_reboot _ _ _ _ Hrun). cbn [fst snd].
      split; [reflexivity |]. exists ssid, pass, key.
      split; [exact Hlen | exact Hprefs].
Qed.

Lemma portal_store_all_or_nothing_witness :
  Provisioning portal_state
  /\ ((fst (portal_loop (world_with_client (post_json "/config" body_net_pw))
              3 portal_state) = Spin
       /\ prefs (snd (portal_loop
                        (world_with_client (post_json "/config" body_net_pw))
                        3 portal_state)) = prefs portal_state)
      \/ (fst (portal_loop (world_with_client (post_json "/config" body_net_pw))
                 3 portal_state) = Reboot
          /\ exists ssid pass key,
               String.length key = 16%nat
               /\ prefs (snd (portal_loop
                                (world_with_client
                                   (post_json "/config" body_net_pw))
                                3 portal_state))
                  = put_credentials ssid pass key (prefs portal_state))).
Proof.
  assert (Hp : Provisioning portal_state) by (split; vm_compute; reflexivity).
  split; [exact Hp |].
  apply (portal_store_all_or_nothing
           (world_with_client (post_json "/config" body_net_pw)) 3
           portal_state Hp).
Defined.

(** X4.  A POST to /save that lacks one of the two form fields is answered
    with 400, whatever else it carries (a JSON body is not looked at); the
    store is not written and the device does not restart. *)
Theorem save_without_field_rejected (W : world) (st : state) (req : request) :
  Provisioning st ->
  method req = HTTP_POST ->
  uri req = "/save" ->
  WebServer.hasArg req "ssid" && WebServer.hasArg req "password" = false ->
  dispatch W setupServer req st
  = (Ret tt,
     append_trace
       [Send setupServer 400 "text/html" "Missing SSID or password"] st).
Proof.
  intros Hp Hm Hu Hargs.
  rewrite (dispatch_save W st req Hp Hm Hu), handleSetupSave_run, Hargs.
  reflexivity.
Qed.

Lemma save_without_field_rejected_witness :
  Provisioning portal_state
  /\ WebServer.hasArg (post_json "/save" body_net_pw) "ssid"
     && WebServer.hasArg (post_json "/save" body_net_pw) "password" = false
  /\ dispatch quiet_world setupServer (post_json "/save" body_net_pw)
       portal_state
     = (Ret tt,
        append_trace
          [Send setupServer 400 "text/html" "Missing SSID or password"]
          portal_state).
Proof.
  assert (Hp : Provisioning portal_state) by (split; vm_compute; reflexivity).
  split; [exact Hp |]. split; [reflexivity |].
  apply (save_without_field_rejected quiet_world portal_state
           (post_json "/save" body_net_pw) Hp eq_refl eq_refl eq_refl).
Defined.

(** *** The JSON path of /config *)

Lemma config_post_stores (W : world) (st : state) (req : request)
    (ssid pass : string) :
  Provisioning st ->
  method req = HTTP_POST ->
  uri req = "/config" ->
  stored (prefs st) "ssid" EmptyString = EmptyString ->
  config_fields req = (ssid, pass) ->
  ssid <> EmptyString -> pass <> EmptyString ->
  dispatch W setupServer req st
  = (Reboot,
     append_trace
       [Send setupServer 200 "application/json" (apikey_body (drawn_key W st));
        Delay 2000; EspRestart]
       (provisioned W ssid pass st)).
Proof.
  intros Hp Hm Hu Hs Hf Hn1 Hn2.
  rewrite (dispatch_config W st req Hp Hm Hu), handleConfigPost_run, Hs, Hf.
  cbn [fst snd]. apply String.eqb_neq in Hn1, Hn2. now rewrite Hn1, Hn2.
Qed.

(** X5.  On the portal of an unconfigured device, a POST to /config whose
    body is the documented object, with a non-empty name free of quotes and
    commas and a non-empty secret free of quotes and closing braces (any
    other character, colons and spaces too, may occur), stores exactly that
    name and that secret with the fresh key, answers 200 with the key, and
    restarts. *)
Theorem config_json_round_trip (W : world) (st : state) (req : request)
    (ssid pass : string) :
  Provisioning st ->
  method req = HTTP_POST ->
  uri req = "/config" ->
  stored (prefs st) "ssid" EmptyString = EmptyString ->
  WebServer.hasArg req "ssid" && WebServer.hasArg req "password" = false ->
  WebServer.arg req "plain" = two_key_body ssid pass ->
  ssid <> EmptyString -> pass <> EmptyString ->
  has_char (ascii_of_nat 34) ssid = false ->
  has_char "," ssid = false ->
  has_char (ascii_of_nat 34) pass = false ->
  has_char "}" pass = false ->
  (WString.len (two_key_body ssid pass) < 2 ^ 32)%Z ->
  dispatch W setupServer req st
  = (Reboot,
     append_trace
       [Send setupServer 200 "application/json" (apikey_body (drawn_key W st));
        Delay 2000; EspRestart]
       (provisioned W ssid pass st))
  /\ prefs (snd (dispatch W setupServer req st))
     = put_credentials ssid pass (drawn_key W st) (prefs st).
Proof.
  intros Hp Hm Hu Hs Hform Hbody Hn1 Hn2 Hq1 Hc1 Hq2 Hb2 Hl.
  assert (Hf : config_fields req = (ssid, pass)).
  { unfold config_fields. rewrite Hform, Hbody.
    now apply scan_json_plain. }
  rewrite (config_post_stores W st req ssid pass Hp Hm Hu Hs Hf Hn1 Hn2).
  split; reflexivity.
Qed.

Lemma config_json_round_trip_witness :
  Provisioning portal_state
  /\ WebServer.arg (post_json "/config" body_net_pw) "plain"
     = two_key_body "net" "pw"
  /\ prefs (snd (dispatch quiet_world setupServer
                   (post_json "/config" body_net_pw) portal_state))
     = put_credentials "net" "pw" (drawn_key quiet_world portal_state)
         (prefs portal_state).
Proof.
  assert (Hp : Provisioning portal_state) by (split; vm_compute; reflexivity).
  split; [exact Hp |]. split; [reflexivity |].
  assert (H1 : "net" <> EmptyString) by discriminate.
  assert (H2 : "pw" <> EmptyString) by discriminate.
  exact (proj2
           (config_json_round_trip quiet_world portal_state
              (post_json "/config" body_net_pw) "net" "pw" Hp eq_refl eq_refl
              eq_refl eq_refl eq_refl H1 H2 eq_refl eq_refl eq_refl eq_refl
              eq_refl)).
Defined.

(** X6.  The scan ends the network name at the first comma after the ssid
    key.  When the name in the documented object contains a comma, what is
    stored is the part before that comma, without trailing white space,
    and not the name that was sent; the secret is stored as sent. *)
Theorem config_json_name_cut_at_comma (W : world) (st : state) (req : request)
    (before after pass : string) :
  Provisioning st ->
  method req = HTTP_POST ->
  uri req = "/config" ->
  stored (prefs st) "ssid" EmptyString = EmptyString ->
  WebServer.hasArg req "ssid" && WebServer.hasArg req "password" = false ->
  WebServer.arg req "plain" = two_key_body (before +:+ "," +:+ after) pass ->
  WString.rtrim before <> EmptyString -> pass <> EmptyString ->
  has_char (ascii_of_nat 34) before = false ->
  has_char "," before = false ->
  has_char (ascii_of_nat 34) after = false ->
  has_char (ascii_of_nat 34) pass = false ->
  has_char "}" pass = false ->
  (WString.len (two_key_body (before +:+ "," +:+ after) pass) < 2 ^ 32)%Z ->
  config_fields req = (WString.rtrim before, pass)
  /\ prefs (snd (dispatch W setupServer req st))
     = put_credentials (WString.rtrim before) pass (drawn_key W st) (prefs st)
  /\ fst (dispatch W setupServer req st) = Reboot.
Proof.
  intros Hp Hm Hu Hs Hform Hbody Hn1 Hn2 Hq1 Hc1 Hq2 Hq3 Hb3 Hl.
  assert (Hf : config_fields req = (WString.rtrim before, pass)).
  { unfold config_fields. rewrite Hform, Hbody.
    now apply scan_json_comma. }
  rewrite (config_post_stores W st req _ pass Hp Hm Hu Hs Hf Hn1 Hn2).
  repeat split. exact Hf.
Qed.

Lemma config_json_name_cut_at_comma_witness :
  Provisioning portal_state
  /\ WebServer.arg (post_json "/config" (two_key_body "my,net" "pw")) "plain"
     = two_key_body ("my" +:+ "," +:+ "net") "pw"
  /\ prefs (snd (dispatch quiet_world setupServer
                   (post_json "/config" (two_key_body "my,net" "pw"))
                   portal_state))
     = put_credentials "my" "pw" (drawn_key quiet_world portal_state)
         (prefs portal_state).
Proof.
  assert (Hp : Provisioning portal_state) by (split; vm_compute; reflexivity).
  split; [exact Hp |]. split; [reflexivity |].
  assert (H1 : WString.rtrim "my" <> EmptyString) by discriminate.
  assert (H2 : "pw" <> EmptyString) by discriminate.
  exact (proj1 (proj2
           (config_json_name_cut_at_comma quiet_world portal_state
              (post_json "/config" (two_key_body "my,net" "pw"))
              "my" "net" "pw" Hp eq_refl eq_refl eq_refl eq_refl eq_refl
              H1 H2 eq_refl eq_refl eq_refl eq_refl eq_refl eq_refl))).
Defined.

Lemma index_absent (c : ascii) (p s : string) :
  has_char c s = false -> forall n, String.index n (String c p) s = None.
Proof.
  induction s as [|d s IH]; intros H n.
  - destruct n; reflexivity.
  - cbn [has_char] in H. apply orb_false_iff in H as [Hd Hs].
    destruct n as [|n].
    + rewrite index_zero_miss by (now apply prefix_head_ne).
      now rewrite (IH Hs).
    + now rewrite index_succ, (IH Hs).
Qed.

Lemma indexOf_absent (c : ascii) (p s : string) (from : Z) :
  has_char c s = false -> WString.indexOf s (String c p) from = (-1)%Z.
Proof.
  intros H. unfold WString.indexOf.
  destruct (_ <=? _)%Z; [reflexivity |]. now rewrite (index_absent c p s H).
Qed.

(** X7.  A POST to /config without both form fields whose body has no colon
    at all, or no closing brace at all, is answered with 400 on an
    unconfigured device, and nothing is written. *)
Theorem config_json_without_delimiter_rejected (W : world) (st : state)
    (req : request) :
  Provisioning st ->
  method req = HTTP_POST ->
  uri req = "/config" ->
  stored (prefs st) "ssid" EmptyString = EmptyString ->
  WebServer.hasArg req "ssid" && WebServer.hasArg req "password" = false ->
  has_char ":" (WebServer.arg req "plain") = false
  \/ has_char "}" (WebServer.arg req "plain") = false ->
  dispatch W setupServer req st
  = (Ret tt,
     append_trace [Send setupServer 400 "application/json" missing_body] st).
Proof.
  intros Hp Hm Hu Hs Hform Hno.
  rewrite (dispatch_config W st req Hp Hm Hu), handleConfigPost_run, Hs.
  cbn [String.eqb negb].
  assert (Hempty : String.eqb (fst (config_fields req)) EmptyString
                   || String.eqb (snd (config_fields req)) EmptyString = true).
  { unfold config_fields. rewrite Hform. unfold scan_json.
    destruct (negb _ && negb _); [| reflexivity].
    destruct Hno as [Hno | Hno].
    - rewrite !(indexOf_absent ":" EmptyString _ _ Hno). reflexivity.
    - rewrite !(indexOf_absent "}" EmptyString _ _ Hno).
      cbn [Z.eqb negb andb fst snd]. rewrite andb_false_r.
      cbn [String.eqb]. apply orb_true_r. }
  now rewrite Hempty.
Qed.

Lemma config_json_without_delimiter_rejected_witness :
  Provisioning portal_state
  /\ has_char "}"
       (WebServer.arg
          (post_json "/config"
             ("{" +:+ quoted "ssid" +:+ ": " +:+ quoted "net" +:+ ", "
              +:+ quoted "password" +:+ ": " +:+ quoted "pw"))
          "plain") = false
  /\ dispatch quiet_world setupServer
       (post_json "/config"
          ("{" +:+ quoted "ssid" +:+ ": " +:+ quoted "net" +:+ ", "
           +:+ quoted "password" +:+ ": " +:+ quoted "pw"))
       portal_state
     = (Ret tt,
        append_trace [Send setupServer 400 "application/json" missing_body]
          portal_state).
Proof.
  assert (Hp : Provisioning portal_state) by (split; vm_compute; reflexivity).
  split; [exact Hp |]. split; [reflexivity |].
  exact (config_json_without_delimiter_rejected quiet_world portal_state
           (post_json "/config"
              ("{" +:+ quoted "ssid" +:+ ": " +:+ quoted "net" +:+ ", "
               +:+ quoted "password" +:+ ": " +:+ quoted "pw"))
           Hp eq_refl eq_refl eq_refl eq_refl (or_intror eq_refl)).
Defined.

(** *** The key, draw by draw *)

Lemma key_char (key : string) (r : Z) :
  (0 <= r < 16)%Z ->
  (if (r <? 10)%Z then key +:+ WString.of_int r
   else key +:+ WString.of_char (WString.char (65 + (r - 10))))
  = key +:+ String (hex_digit r) EmptyString.
Proof.
  intros Hr.
  assert (Hcases : (r = 0 \/ r = 1 \/ r = 2 \/ r = 3 \/ r = 4 \/ r = 5
                    \/ r = 6 \/ r = 7 \/ r = 8 \/ r = 9 \/ r = 10 \/ r = 11
                    \/ r = 12 \/ r = 13 \/ r = 14 \/ r = 15)%Z) by lia.
  repeat (destruct Hcases as [-> | Hcases]); try subst r; reflexivity.
Qed.

Lemma generateAPIKey_loop_digits (W : world) (n : nat) :
  forall key st,
    generateAPIKey_loop W n key st
    = (Ret (key +:+ key_of_draws (prng W (rng_seed st)) (rng_pos st) n),
       set_rng (rng_seed st) (rng_pos st + n) st).
Proof.
  induction n as [|n IH]; intros key st.
  - cbn [generateAPIKey_loop key_of_draws]. unfold ret.
    rewrite append_empty_r. destruct st. run. now rewrite Nat.add_0_r.
  - cbn [generateAPIKey_loop key_of_draws]. unfold bind at 1, random.
    change (16 <=? 0)%Z with false. cbv iota.
    change (16 - 0)%Z with 16%Z. rewrite Z.add_0_l.
    rewrite key_char by (apply Z.mod_pos_bound; lia).
    rewrite IH, append_snoc. destruct st. run.
    f_equal. f_equal. lia.
Qed.

(** X8.  The key is the sixteen draws written in hexadecimal: its i-th
    character is the digit (0-9, A-F) of the i-th next raw draw of the
    generator modulo 16, and generating it advances the generator by
    exactly sixteen draws and changes nothing else. *)
Theorem generateAPIKey_digits (W : world) (st : state) :
  generateAPIKey W st
  = (Ret (key_of_draws (prng W (rng_seed st)) (rng_pos st) 16),
     set_rng (rng_seed st) (rng_pos st + 16) st).
Proof.
  unfold generateAPIKey. rewrite generateAPIKey_loop_digits. reflexivity.
Qed.

(** *** Booting into normal mode *)

Lemma wifi_wait_exact (W : world) (n : nat) :
  forall fuel st,
    (forall i, i < n -> wifi_connected W (wifi_pos st + i) = false) ->
    wifi_connected W (wifi_pos st + n) = true ->
    n < fuel ->
    wifi_wait W fuel st
    = (Ret tt,
       append_trace (wifi_dots n)
         (set_pos (entropy_pos st) (wifi_pos st + S n) (client_pos st)
            (post_pos st) st)).
Proof.
  induction n as [|n IH]; intros fuel st Hno Hc Hf;
    (destruct fuel as [|fuel]; [lia |]);
    unfold wifi_wait; cbn [while];
    unfold WiFi_connected at 1; unfold bind at 1 2; unfold ret at 1.
  - rewrite Nat.add_0_r in Hc. rewrite Hc. cbn [negb]. unfold ret.
    destruct st. simpl_state. rewrite app_nil_r.
    do 2 f_equal. lia.
  - assert (H0 : wifi_connected W (wifi_pos st) = false).
    { rewrite <- (Nat.add_0_r (wifi_pos st)). apply Hno. lia. }
    rewrite H0. cbn [negb].
    unfold delay, Serial_print. rewrite bind_assoc, !bind_emit.
    change (while fuel _ _) with (wifi_wait W fuel).
    rewrite IH; [| | | lia].
    + destruct st. simpl_state. cbn [wifi_dots repeat List.concat].
      rewrite <- !app_assoc. do 2 f_equal. lia.
    + intros i Hi. destruct st. simpl_state. simpl_state_in Hno.
      rewrite <- (Hno (S i)) by lia. f_equal. lia.
    + destruct st. simpl_state. simpl_state_in Hc.
      rewrite <- Hc. f_equal. lia.
Qed.

(** X9.  With a name and a key stored, boot polls the network status every
    500 ms and returns on the first poll that reports the connection:
    after n refused polls its whole trace is the station-mode start, n
    waits of 500 ms, then relay line 23 configured as output and driven
    low, then the start of the normal surface with its four routes; the
    store is as it was. *)
Theorem boot_normal_exact (W : world) (fuel n : nat)
    (flash : gmap string string) :
  stored flash "ssid" EmptyString <> EmptyString ->
  stored flash "apikey" EmptyString <> EmptyString ->
  (forall i, i < n -> wifi_connected W i = false) ->
  wifi_connected W n = true ->
  n < fuel ->
  exists st,
    boot W fuel flash = (Ret tt, st)
    /\ trace st
       = normal_boot_log (stored flash "ssid" EmptyString)
           (stored flash "password" EmptyString) n
    /\ routes st = normal_routes
    /\ prefs st = flash.
Proof.
  intros Hs Hk Hno Hc Hf.
  apply String.eqb_neq in Hs, Hk.
  unfold boot, setup, delay, getString, Serial_print.
  rewrite !bind_emit, !bind_gets, bind_modify, !bind_gets.
  simpl_state. rewrite Hs, Hk. cbn [orb].
  rewrite bind_emit, bind_gets, !bind_emit.
  change (while fuel (c <- WiFi_connected W ;; ret (negb c))
            (emit (Delay 500) ;; emit (SerialPrint ".")))
    with (wifi_wait W fuel).
  erewrite bind_run; [| apply (wifi_wait_exact W n); [exact Hno | exact Hc | exact Hf]].
  eexists. split; [reflexivity |].
  simpl_state. unfold normal_boot_log.
  split; [| split; reflexivity].
  cbn [app]. rewrite <- !app_assoc. reflexivity.
Qed.

Lemma boot_normal_exact_witness :
  stored flash_net "ssid" EmptyString <> EmptyString
  /\ wifi_connected quiet_world 2 = true
  /\ exists st,
       boot quiet_world 5 flash_net = (Ret tt, st)
       /\ trace st = normal_boot_log "net" "pw" 2
       /\ routes st = normal_routes
       /\ prefs st = flash_net.
Proof.
  assert (Hs : stored flash_net "ssid" EmptyString <> EmptyString)
    by (vm_compute; discriminate).
  assert (Hk : stored flash_net "apikey" EmptyString <> EmptyString)
    by (vm_compute; discriminate).
  assert (Hno : forall i, i < 2 -> wifi_connected quiet_world i = false).
  { intros i Hi. destruct i as [|[|i]]; [reflexivity | reflexivity | lia]. }
  split; [exact Hs |]. split; [reflexivity |].
  exact (boot_normal_exact quiet_world 5 2 flash_net Hs Hk Hno eq_refl
           ltac:(lia)).
Defined.

Lemma wifi_wait_offline (W : world) (fuel : nat) :
  (forall i, wifi_connected W i = false) ->
  forall st, fst (wifi_wait W fuel st) = Spin.
Proof.
  intros Hoff. unfold wifi_wait, delay, Serial_print.
  induction fuel as [|fuel IH]; intros st; cbn [while]; [reflexivity |].
  rewrite bind_assoc. unfold WiFi_connected at 1. unfold bind at 1.
  rewrite bind_ret, Hoff. cbn [negb].
  rewrite bind_assoc, !bind_emit. apply IH.
Qed.

Lemma bind_spin {A B} (m : M A) (k : A -> M B) (st : state) :
  fst (m st) = Spin -> (x <- m ;; k x) st = (Spin, snd (m st)).
Proof.
  intros H. unfold bind. destruct (m st) as [[a | |] st']; cbn [fst] in H;
    [discriminate | discriminate | reflexivity].
Qed.

(** X10.  The wait for the network has no timeout and no fallback: if no
    status poll ever reports the connection, boot with stored credentials
    never returns, however long it runs, and starts neither the normal
    surface nor the setup portal. *)
Theorem boot_offline_never_serves (W : world) (fuel : nat)
    (flash : gmap string string) :
  stored flash "ssid" EmptyString <> EmptyString ->
  stored flash "apikey" EmptyString <> EmptyString ->
  (forall i, wifi_connected W i = false) ->
  fst (boot W fuel flash) = Spin
  /\ existsb is_ServerBegin (trace (snd (boot W fuel flash))) = false
  /\ existsb portal_event (trace (snd (boot W fuel flash))) = false.
Proof.
  intros Hs Hk Hoff.
  split; [| split; [| now apply setup_provisioned_trace]];
    apply String.eqb_neq in Hs, Hk;
    unfold boot, setup, delay, getString, Serial_print;
    rewrite !bind_emit, !bind_gets, bind_modify, !bind_gets;
    simpl_state; rewrite Hs, Hk; cbn [orb];
    rewrite bind_emit, bind_gets, !bind_emit;
    change (while fuel (c <- WiFi_connected W ;; ret (negb c))
              (emit (Delay 500) ;; emit (SerialPrint ".")))
      with (wifi_wait W fuel);
    rewrite bind_spin by (now apply wifi_wait_offline).
  - reflexivity.
  - cbn [snd]. apply grows_avoids; [| reflexivity].
    unfold wifi_wait. stable_tac.
Qed.

Lemma boot_offline_never_serves_witness :
  stored flash_net "ssid" EmptyString <> EmptyString
  /\ fst (boot offline_world 7 flash_net) = Spin
  /\ existsb is_ServerBegin (trace (snd (boot offline_world 7 flash_net)))
     = false.
Proof.
  assert (Hs : stored flash_net "ssid" EmptyString <> EmptyString)
    by (vm_compute; discriminate).
  assert (Hk : stored flash_net "apikey" EmptyString <> EmptyString)
    by (vm_compute; discriminate).
  destruct (boot_offline_never_serves offline_world 7 flash_net Hs Hk
              (fun _ => eq_refl)) as (H1 & H2 & _).
  split; [exact Hs |]. split; [exact H1 | exact H2].
Defined.

(** *** One iteration of the main loop *)

Lemma dispatch_normal_hw (W : world) (st : state) (req : request) :
  Operational st ->
  exists evs,
    dispatch W server req st = (Ret tt, append_trace evs st)
    /\ hw evs = if is_actuation_request req && authorized st req
                then pulse else [].
Proof.
  intros Hop. rewrite (dispatch_normal W st req Hop).
  unfold is_actuation_request.
  destruct (http_method_eqb _ _); cbn [andb];
    [destruct (String.eqb (uri req) "/open");
     [| destruct (String.eqb (uri req) "/close");
        [| destruct (String.eqb (uri req) "/docs");
           [| destruct (String.eqb (uri req) "/swagger.json")]]] |];
    cbn [orb andb];
    first [ rewrite (handleOpen_run W) | rewrite (handleClose_run W)
          | rewrite (handleNotFound_run W) | idtac ];
    eexists; (split; [reflexivity |]);
    try (destruct (authorized st req)); reflexivity.
Qed.

(** X11.  In normal mode one pass of the main loop always returns, and on
    the relay lines it does exactly this: a pulse if the pending client
    made an authorized GET of /open or /close, then the wait of 1000 ms,
    then a pulse if the outbound POST was answered with 200.  The store is
    not written and the device stays in normal mode. *)
Theorem loop_pass (W : world) (st : state) :
  Operational st ->
  fst (loop W st) = Ret tt
  /\ hw (events_since st (snd (loop W st)))
     = (if match clients W (client_pos st) with
           | Some req => is_actuation_request req && authorized st req
           | None => false
           end
        then pulse else [])
       ++ [Delay 1000]
       ++ (if (fst (post_reply W (post_pos st)) =? 200)%Z then pulse else [])
  /\ prefs (snd (loop W st)) = prefs st
  /\ Operational (snd (loop W st)).
Proof.
  intros Hop. unfold loop.
  set (st1 := set_pos (entropy_pos st) (wifi_pos st) (S (client_pos st))
                (post_pos st) st).
  assert (Hop1 : Operational st1)
    by (apply (Operational_same st); [reflexivity .. | exact Hop]).
  assert (Hserve : exists evs,
             handleClient W server st = (Ret tt, append_trace evs st1)
             /\ hw evs
                = if match clients W (client_pos st) with
                     | Some req => is_actuation_request req && authorized st req
                     | None => false
                     end
                  then pulse else []).
  { unfold handleClient. rewrite bind_gets, bind_modify. fold st1.
    destruct (clients W (client_pos st)) as [req |].
    - apply (dispatch_normal_hw W st1 req Hop1).
    - exists []. rewrite append_trace_nil. split; reflexivity. }
  destruct Hserve as (evs & Hrun & Hhw).
  rewrite (bind_run _ _ _ _ _ Hrun).
  unfold Serial_println, delay. rewrite !bind_emit, sendPostMessage_run.
  cbn [fst snd]. split; [reflexivity |]. split; [| split].
  - unfold events_since. simpl_state. rewrite <- !app_assoc.
    rewrite drop_app_length. unfold hw in *.
    rewrite !List.filter_app, Hhw. unfold poll_log.
    destruct (_ =? 200)%Z; reflexivity.
  - reflexivity.
  - apply (Operational_same st1); [reflexivity .. | exact Hop1].
Qed.

Lemma loop_pass_witness :
  Operational normal_state
  /\ hw (events_since normal_state
           (snd (loop (triggering_world
                         (get_with_auth "/open" "Bearer 0123456789ABCDEF"))
                   normal_state)))
     = pulse ++ [Delay 1000] ++ pulse.
Proof.
  assert (Hop : Operational normal_state)
    by (repeat split; vm_compute; reflexivity).
  split; [exact Hop |].
  exact (proj1 (proj2
           (loop_pass (triggering_world
                         (get_with_auth "/open" "Bearer 0123456789ABCDEF"))
              normal_state Hop))).
Defined.

Lemma sketch_normal_witness :
  stored flash_net "ssid" EmptyString <> EmptyString
  /\ wifi_connected quiet_world 2 = true
  /\ fst (sketch (triggering_world
                    (get_with_auth "/open" "Bearer 0123456789ABCDEF"))
            4 (boot_state flash_net)) = Spin
  /\ prefs (snd (sketch (triggering_world
                           (get_with_auth "/open" "Bearer 0123456789ABCDEF"))
                   4 (boot_state flash_net))) = flash_net.
Proof.
  assert (Hs : stored flash_net "ssid" EmptyString <> EmptyString)
    by (vm_compute; discriminate).
  assert (Hk : stored flash_net "apikey" EmptyString <> EmptyString)
    by (vm_compute; discriminate).
  split; [exact Hs |]. split; [reflexivity |].
  exact (sketch_normal
           (triggering_world (get_with_auth "/open" "Bearer 0123456789ABCDEF"))
           4 2 flash_net Hs Hk eq_refl ltac:(lia)).
Defined.

(** *** From first boot to normal mode *)

Lemma portal_entry_client_pos (W : world) (st : state) :
  client_pos (portal_entry W st) = client_pos st.
Proof.
  unfold portal_entry. destruct st. run.
  destruct (_ =? 0)%Z; reflexivity.
Qed.

(** X13.  First boot, end to end.  On an empty store the device comes up
    as setup portal; if the first client posts non-empty credentials to
    /config, the boot cycle ends in a restart with that name, that secret
    and a key of 16 characters in the store, the key having been sent in
    the 200 reply; and the boot after it, in any environment, asks to join
    that network with that secret and opens no setup portal. *)
Theorem first_boot_provisioning (W W' : world) (fuel fuel' : nat)
    (req : request) (ssid pass : string) :
  clients W 0 = Some req ->
  method req = HTTP_POST ->
  uri req = "/config" ->
  config_fields req = (ssid, pass) ->
  ssid <> EmptyString -> pass <> EmptyString ->
  0 < fuel ->
  exists st key,
    boot W fuel ∅ = (Reboot, st)
    /\ String.length key = 16%nat
    /\ prefs st = put_credentials ssid pass key ∅
    /\ In (Send setupServer 200 "application/json" (apikey_body key))
         (trace st)
    /\ In (WiFiBegin ssid pass) (trace (snd (boot W' fuel' (prefs st))))
    /\ existsb portal_event (trace (snd (boot W' fuel' (prefs st)))) = false.
Proof.
  intros Hc Hm Hu Hf Hn1 Hn2 Hfuel.
  destruct fuel as [|fuel]; [lia |].
  unfold boot at 1.
  rewrite (setup_unprovisioned W (S fuel) ∅) by (left; reflexivity).
  rewrite runSetupPortal_eq.
  set (st0 := portal_entry W _).
  assert (Hp0 : Provisioning st0) by apply portal_entry_Provisioning.
  assert (Hpos : client_pos st0 = 0%nat)
    by (subst st0; now rewrite portal_entry_client_pos).
  assert (Hprefs0 : prefs st0 = ∅)
    by (subst st0; now rewrite (proj2 (proj2 (portal_entry_routes W _)))).
  set (st1 := set_pos (entropy_pos st0) (wifi_pos st0) (S (client_pos st0))
                (post_pos st0) st0).
  assert (Hp1 : Provisioning st1)
    by (apply (Provisioning_same st0); [reflexivity .. | exact Hp0]).
  assert (Hs1 : stored (prefs st1) "ssid" EmptyString = EmptyString).
  { change (prefs st1) with (prefs st0). now rewrite Hprefs0. }
  assert (Hrun : handleClient W setupServer st0
                 = (Reboot,
                    append_trace
                      [Send setupServer 200 "application/json"
                         (apikey_body (drawn_key W st1));
                       Delay 2000; EspRestart]
                      (provisioned W ssid pass st1))).
  { unfold handleClient. rewrite bind_gets, bind_modify.
    change (set_pos _ _ _ _ st0) with st1. rewrite Hpos, Hc.
    apply (config_post_stores W st1 req ssid pass Hp1 Hm Hu Hs1 Hf Hn1 Hn2). }
  unfold portal_loop. cbn [while].
  rewrite bind_ret, bind_assoc, (bind_reboot _ _ _ _ Hrun).
  eexists. exists (drawn_key W st1).
  split; [reflexivity |].
  split; [apply drawn_key_hex16 |].
  assert (Hprefs : prefs (append_trace
                            [Send setupServer 200 "application/json"
                               (apikey_body (drawn_key W st1));
                             Delay 2000; EspRestart]
                            (provisioned W ssid pass st1))
                   = put_credentials ssid pass (drawn_key W st1) ∅).
  { rewrite provisioned_prefs. change (prefs st1) with (prefs st0).
    now rewrite Hprefs0. }
  split; [exact Hprefs |]. split.
  - simpl_state. apply in_or_app. right. now left.
  - rewrite Hprefs.
    destruct (stored_put_credentials ssid pass (drawn_key W st1) ∅)
      as (E1 & E2 & E3).
    rewrite <- E1 at 1. rewrite <- E2 at 2.
    apply setup_provisioned_trace.
    + now rewrite E1.
    + rewrite E3. apply drawn_key_nonempty.
Qed.

Lemma first_boot_provisioning_witness :
  clients (world_with_client (post_json "/config" body_net_pw)) 0
  = Some (post_json "/config" body_net_pw)
  /\ config_fields (post_json "/config" body_net_pw) = ("net", "pw")
  /\ exists st key,
       boot (world_with_client (post_json "/config" body_net_pw)) 1 ∅
       = (Reboot, st)
       /\ String.length key = 16%nat
       /\ prefs st = put_credentials "net" "pw" key ∅
       /\ In (Send setupServer 200 "application/json" (apikey_body key))
            (trace st)
       /\ In (WiFiBegin "net" "pw")
            (trace (snd (boot quiet_world 5 (prefs st))))
       /\ existsb portal_event (trace (snd (boot quiet_world 5 (prefs st))))
          = false.
Proof.
  assert (H1 : "net" <> EmptyString) by discriminate.
  assert (H2 : "pw" <> EmptyString) by discriminate.
  split; [reflexivity |]. split; [reflexivity |].
  exact (first_boot_provisioning
           (world_with_client (post_json "/config" body_net_pw)) quiet_world
           1 5 (post_json "/config" body_net_pw) "net" "pw"
           eq_refl eq_refl eq_refl eq_refl H1 H2 ltac:(lia)).
Defined.
